(** * Poke plugin: target resolution, cooldown gate and dispatch

    A shallow embedding of [PokeAction] (plugin.py) and the properties of
    its target-resolution chain, its 300 second cooldown gate and its
    dispatch / logging glue.

    Python values are modelled as the code uses them:
    - a [str] is a sequence of Unicode code points ([list N]);
    - the optional strings that travel through the action ([user_id],
      [group_id], [reasoning], ...) are [option str], [None] being Python's
      [None];
    - [action_data] is a dictionary from key names to such values;
    - host collaborators (person API, transport, clock) are oracles of a
      [Host] record; every call that crosses the component boundary is
      recorded in a chronological trace of events. *)

From stdpp Require Import base option list strings gmap.
From Stdlib Require Import QArith Lia.

Local Open Scope N_scope.

(** ** Strings *)

(** A Python [str]: its code points. *)
Definition str := list N.

(** Decoding of the UTF-8 bytes of a source literal into code points, so
    that the literals of plugin.py can be written as they are in the
    source. *)
Fixpoint utf8_decode (bs : list N) : str :=
  match bs with
  | [] => []
  | b0 :: t =>
    if b0 <? 128 then b0 :: utf8_decode t
    else if b0 <? 224 then
      match t with
      | b1 :: t1 => ((b0 - 192) * 64 + (b1 - 128)) :: utf8_decode t1
      | _ => []
      end
    else if b0 <? 240 then
      match t with
      | b1 :: b2 :: t2 =>
        ((b0 - 224) * 4096 + (b1 - 128) * 64 + (b2 - 128)) :: utf8_decode t2
      | _ => []
      end
    else
      match t with
      | b1 :: b2 :: b3 :: t3 =>
        ((b0 - 240) * 262144 + (b1 - 128) * 4096 + (b2 - 128) * 64 + (b3 - 128))
          :: utf8_decode t3
      | _ => []
      end
  end.

Fixpoint bytes_of (s : string) : list N :=
  match s with
  | EmptyString => []
  | String a t => Ascii.N_of_ascii a :: bytes_of t
  end.

Definition py (s : string) : str := utf8_decode (bytes_of s).

(** ** Optional values and truthiness *)

(** [None] or a [str]. *)
Definition pyval := option str.

(** Python truth value: [None] and the empty string are false. *)
Definition truthy (v : pyval) : bool :=
  match v with
  | Some (_ :: _) => true
  | _ => false
  end.

(** [a == b] on optional strings. *)
Definition pyval_eqb (a b : pyval) : bool := bool_decide (a = b).

(** [a or b]. *)
Definition py_or (a b : pyval) : pyval := if truthy a then a else b.

(** The text of [str(None)]. *)
Definition NONE_TEXT : str := Eval vm_compute in py "None".

(** [str(v)], also the rendering of [v] inside an f-string. *)
Definition py_str (v : pyval) : str :=
  match v with
  | Some s => s
  | None => NONE_TEXT
  end.

(** ** Character classes

    The Unicode tables behind [str.isdigit] and the regular-expression
    classes [\d] and [\s] are not part of the plugin; they are taken as a
    parameter, constrained only on printable ASCII where their values are
    fixed. *)
Class UnicodeDB := {
  uc_isdigit : N -> bool;   (* a character accepted by str.isdigit *)
  uc_decimal : N -> bool;   (* \d *)
  uc_space : N -> bool;     (* \s *)
  uc_isdigit_ascii c : 32 <= c <= 126 -> uc_isdigit c = (48 <=? c) && (c <=? 57);
  uc_decimal_ascii c : 32 <= c <= 126 -> uc_decimal c = (48 <=? c) && (c <=? 57);
  uc_space_ascii c : 32 <= c <= 126 -> uc_space c = (c =? 32)
}.

(** The table that knows ASCII only. *)
#[local] Instance ascii_db : UnicodeDB.
Proof.
  refine {| uc_isdigit c := (48 <=? c) && (c <=? 57);
            uc_decimal c := (48 <=? c) && (c <=? 57);
            uc_space c := (c =? 32) || ((9 <=? c) && (c <=? 13)) |};
    intros c Hc; try reflexivity.
  destruct (N.eqb_spec c 32) as [->|Hne]; [reflexivity|].
  simpl. destruct (N.leb_spec 9 c), (N.leb_spec c 13); simpl; try reflexivity; lia.
Defined.

Section Text.
Context {U : UnicodeDB}.

(** [s.isdigit()]: at least one character, all of them digits. *)
Definition isdigit (s : str) : bool :=
  match s with
  | [] => false
  | _ => forallb uc_isdigit s
  end.

(** Is [lit] a prefix of [s]? *)
Fixpoint starts_with (lit s : str) : bool :=
  match lit, s with
  | [], _ => true
  | c :: lit', d :: s' => (c =? d) && starts_with lit' s'
  | _ :: _, [] => false
  end.

(** The longest prefix of decimal digits. *)
Fixpoint take_decimals (s : str) : str :=
  match s with
  | c :: t => if uc_decimal c then c :: take_decimals t else []
  | [] => []
  end.

(** [(\d+)] at the head of [s]: greedy, at least one digit. *)
Definition match_digits (s : str) : option str :=
  match take_decimals s with
  | [] => None
  | d => Some d
  end.

(** [\s*(\d+)] at the head of [s]: the whitespace run is taken as long
    as possible first and given back one character at a time when the
    digits do not follow. *)
Fixpoint match_ws_digits (s : str) : option str :=
  match s with
  | c :: t =>
    if uc_space c then
      match match_ws_digits t with
      | Some d => Some d
      | None => match_digits s
      end
    else match_digits s
  | [] => None
  end.

(** [lit\s*(\d+)] anchored at the head of [s]; the result is group 1. *)
Definition match_at (lit s : str) : option str :=
  if starts_with lit s then match_ws_digits (drop (length lit) s) else None.

(** [re.search(lit + r'\s*(\d+)', s)]: the leftmost match, as group 1. *)
Fixpoint re_search (lit s : str) : option str :=
  match match_at lit s with
  | Some d => Some d
  | None =>
    match s with
    | [] => None
    | _ :: t => re_search lit t
    end
  end.
End Text.

Definition GROUP_ID_PATTERN : str := Eval vm_compute in py "group_id:".
Definition USER_ID_PATTERN : str := Eval vm_compute in py "user_id:".

(** ** Objects of the host framework that the action reads *)

(** [getattr(x, "group_id", None)] of the objects below is [None] when the
    attribute is missing. *)
Module MessageInfo.
Record t := { group_id : pyval }.
End MessageInfo.

Module Message.
(** [message_info] is [None] when [getattr(message, "message_info", None)]
    is not a (truthy) object. *)
Record t := { message_info : option MessageInfo.t }.
End Message.

Module ChatStream.
Record t := { group_id : pyval }.
End ChatStream.

(** The record handed to [database_api.store_action_info]. *)
Module ActionInfo.
Record t := {
  chat_stream : ChatStream.t;
  action_build_into_prompt : bool;
  action_prompt_display : str;
  action_done : bool;
  action_data : gmap string pyval;
  action_name : str
}.
End ActionInfo.

(** The attributes of a [PokeAction] instance. [message] and [group_id]
    are optional because the code asks [hasattr] before reading them;
    [chat_stream] is read unguarded by [execute] and is always there. *)
Module PokeAction.
Record t := {
  action_data : gmap string pyval;
  message : option Message.t;
  chat_stream : ChatStream.t;
  group_id : option pyval;
  reasoning : pyval;
  llm_response_text : str;
  (* 戳一戳频率限制相关变量 *)
  last_poke_user : pyval;
  last_poke_group : pyval;
  _last_poke_time : Q
}.

Definition set_last_poke_user (v : pyval) (a : t) : t :=
  {| action_data := action_data a; message := message a;
     chat_stream := chat_stream a; group_id := group_id a;
     reasoning := reasoning a; llm_response_text := llm_response_text a;
     last_poke_user := v; last_poke_group := last_poke_group a;
     _last_poke_time := _last_poke_time a |}.

Definition set_last_poke_group (v : pyval) (a : t) : t :=
  {| action_data := action_data a; message := message a;
     chat_stream := chat_stream a; group_id := group_id a;
     reasoning := reasoning a; llm_response_text := llm_response_text a;
     last_poke_user := last_poke_user a; last_poke_group := v;
     _last_poke_time := _last_poke_time a |}.

Definition set_last_poke_time (v : Q) (a : t) : t :=
  {| action_data := action_data a; message := message a;
     chat_stream := chat_stream a; group_id := group_id a;
     reasoning := reasoning a; llm_response_text := llm_response_text a;
     last_poke_user := last_poke_user a; last_poke_group := last_poke_group a;
     _last_poke_time := v |}.
End PokeAction.

(** ** Effects *)

(** What a collaborator raises and [except Exception] catches: an
    instance of [Exception]; [exc_str] is [str(e)]. *)
Record exception := Exception { exc_str : str }.

Inductive outcome (A : Type) : Type :=
| Returns (a : A)
| Raises (e : exception).
Arguments Returns {A} a.
Arguments Raises {A} e.

(** What [_send_group_poke] and [_send_friend_poke] return next to the
    flag: the acknowledgement dictionary or [str(e)]. *)
Inductive poke_result :=
| PokeAck (status msg : str)
| PokeError (description : str).

(** Calls that leave the component, in the order they are made. *)
Inductive event :=
| LoggerInfo (msg : str)
| LoggerError (msg : str)
| GetPersonIdByName (name : pyval)
| GetPersonValue (person_id : pyval) (field : str)
| SendCommand (command : str) (qq_id : pyval) (display_message : str)
| SendText (text : str)
| StoreActionInfo (r : ActionInfo.t).

(** The collaborators during one invocation. The person API and the
    transport may raise; [time_time n] is what the [n]-th call of
    [time.time()] returns, a binary64 number of seconds given as the
    rational it stands for. *)
Record Host := {
  get_person_id_by_name : pyval -> outcome pyval;
  get_person_value : pyval -> str -> outcome pyval;
  send_command : str -> pyval -> str -> outcome unit;
  time_time : nat -> Q
}.

Record State := {
  self : PokeAction.t;
  trace : list event;
  clock_reads : nat
}.

Definition M (A : Type) : Type := State -> outcome A * State.

Definition ret {A} (a : A) : M A := fun s => (Returns a, s).

Definition bind {A B} (m : M A) (k : A -> M B) : M B :=
  fun s =>
    match m s with
    | (Returns a, s') => k a s'
    | (Raises e, s') => (Raises e, s')
    end.

(** [try: body except Exception as e: handler e]. *)
Definition try_except {A} (body : M A) (handler : exception -> M A) : M A :=
  fun s =>
    match body s with
    | (Returns a, s') => (Returns a, s')
    | (Raises e, s') => handler e s'
    end.

Declare Scope poke_scope.
Delimit Scope poke_scope with poke.
Notation "'let*' x ':=' c1 'in' c2" := (bind c1 (fun x => c2))
  (at level 10, x pattern, c1 at level 100, c2 at level 200) : poke_scope.
Notation "c1 ;; c2" := (bind c1 (fun _ => c2))
  (at level 100, c2 at level 200, right associativity) : poke_scope.

Definition get_self : M PokeAction.t := fun s => (Returns (self s), s).

Definition modify_self (f : PokeAction.t -> PokeAction.t) : M unit :=
  fun s => (Returns tt,
            {| self := f (self s); trace := trace s; clock_reads := clock_reads s |}).

(** An outgoing call: it is recorded, then answers with [r]. *)
Definition call {A} (ev : event) (r : outcome A) : M A :=
  fun s => (r, {| self := self s; trace := trace s ++ [ev];
                  clock_reads := clock_reads s |}).

Definition init_state (a : PokeAction.t) : State :=
  {| self := a; trace := []; clock_reads := 0 |}.

(** ** Literals of plugin.py *)

Definition POKE_DEBUG : bool := true.

Definition SEND_POKE : str := Eval vm_compute in py "SEND_POKE".
Definition USER_ID_FIELD : str := Eval vm_compute in py "user_id".
Definition ACTION_NAME : str := Eval vm_compute in py "poke".
Definition ACK_STATUS : str := Eval vm_compute in py "ok".
Definition ACK_MSG : str := Eval vm_compute in py "SEND_POKE 已发送".
Definition NO_REASON : str := Eval vm_compute in py "无".
Definition MSG_NO_TARGET : str := Eval vm_compute in py "无法找到目标用户ID".
Definition MSG_DUPLICATE : str := Eval vm_compute in py "避免重复戳同一个人".
Definition MSG_SUCCESS : str := Eval vm_compute in py "戳一戳成功".
Definition MSG_FAILED : str := Eval vm_compute in py "戳一戳失败: ".
Definition LOG_PARAMS_USER : str := Eval vm_compute in py "poke参数: user_id=".
Definition LOG_PARAMS_GROUP : str := Eval vm_compute in py ", group_id=".
Definition LOG_PERSON_API : str := Eval vm_compute in py "person_api 查找出错: ".
Definition LOG_GROUP_FAILED : str := Eval vm_compute in py "[群戳失败] ".
Definition LOG_FRIEND_FAILED : str := Eval vm_compute in py "[好友戳失败] ".
Definition DISPLAY_OPEN : str := Eval vm_compute in py "[戳了戳 ".
Definition DISPLAY_CLOSE : str := Eval vm_compute in py "]".
Definition PROMPT_DISPLAY : str := Eval vm_compute in py "使用了戳一戳，原因：".

(* The literals stay folded in proofs. *)
Opaque SEND_POKE USER_ID_FIELD ACTION_NAME ACK_STATUS ACK_MSG NO_REASON MSG_NO_TARGET
  MSG_DUPLICATE MSG_SUCCESS MSG_FAILED LOG_PARAMS_USER LOG_PARAMS_GROUP LOG_PERSON_API LOG_GROUP_FAILED
  LOG_FRIEND_FAILED DISPLAY_OPEN DISPLAY_CLOSE PROMPT_DISPLAY NONE_TEXT GROUP_ID_PATTERN USER_ID_PATTERN.

(** The cooldown window, in seconds. *)
Definition COOLDOWN : Q := 300%Q.

(** [x < y] on timestamps. *)
Definition Qltb (x y : Q) : bool := negb (Qle_bool y x).

(** ** Float subtraction

    Timestamps are binary64 numbers, here the rationals they stand for,
    and [x - y] at line 165 is the float subtraction: the exact
    difference rounded to the nearest binary64 number. The rounded
    difference is a parameter, constrained by what rounding guarantees:
    it is monotone and keeps the integers up to [2 ^ 53], so it never
    carries a difference across such an integer. *)
Class FloatArith := {
  float_sub : Q -> Q -> Q;
  float_sub_ge (x y : Q) (n : Z) :
    (Z.abs n <= 2 ^ 53)%Z -> (inject_Z n <= x - y)%Q -> (inject_Z n <= float_sub x y)%Q;
  float_sub_le (x y : Q) (n : Z) :
    (Z.abs n <= 2 ^ 53)%Z -> (x - y <= inject_Z n)%Q -> (float_sub x y <= inject_Z n)%Q
}.

(** The arithmetic that never rounds. *)
#[local] Instance exact_arith : FloatArith.
Proof.
  refine {| float_sub x y := (x - y)%Q |}; intros x y n _ H; exact H.
Defined.

(** [f"{result}"]: the error text, or the [repr] of the acknowledgement. *)
Definition fmt_result (r : poke_result) : str :=
  match r with
  | PokeError d => d
  | PokeAck status msg =>
    py "{'status': '" ++ status ++ py "', 'msg': '" ++ msg ++ py "'}"
  end.

(** ** The action *)

Section Action.
Context {U : UnicodeDB}.
Context {F : FloatArith}.
Variable host : Host.

Local Open Scope poke_scope.

Definition logger_info (msg : str) : M unit := call (LoggerInfo msg) (Returns tt).
Definition logger_error (msg : str) : M unit := call (LoggerError msg) (Returns tt).

Definition person_api_get_person_id_by_name (name : pyval) : M pyval :=
  call (GetPersonIdByName name) (get_person_id_by_name host name).

Definition person_api_get_person_value (person_id : pyval) (field : str) : M pyval :=
  call (GetPersonValue person_id field) (get_person_value host person_id field).

Definition self_send_command (command : str) (qq_id : pyval) (display_message : str)
  : M unit :=
  call (SendCommand command qq_id display_message)
       (send_command host command qq_id display_message).

(** The conversation output and the action store answer nothing and are
    given no failure mode by their interface. *)
Definition self_send_text (text : str) : M unit := call (SendText text) (Returns tt).

Definition database_api_store_action_info (r : ActionInfo.t) : M unit :=
  call (StoreActionInfo r) (Returns tt).

(** [time.time()]. *)
Definition time_now : M Q :=
  fun s => (Returns (time_time host (clock_reads s)),
            {| self := self s; trace := trace s; clock_reads := S (clock_reads s) |}).

(** [action_data.get(key)] and [action_data.get(key, dflt)]. *)
Definition dict_get (d : gmap string pyval) (key : string) : pyval :=
  default None (d !! key).
Definition dict_get_default (d : gmap string pyval) (key : string) (dflt : pyval)
  : pyval :=
  default dflt (d !! key).

(** Lines 90-101: the group id before any user lookup. *)
Definition ambient_group_id (a : PokeAction.t) : pyval :=
  let group_id := dict_get (PokeAction.action_data a) "group_id" in
  (* 自动从消息对象获取群号 *)
  let group_id :=
    if negb (truthy group_id) then
      match PokeAction.message a with
      | Some m =>
        match Message.message_info m with
        | Some info => MessageInfo.group_id info
        | None => group_id
        end
      | None => group_id
      end
    else group_id in
  let group_id :=
    if negb (truthy group_id) && truthy (ChatStream.group_id (PokeAction.chat_stream a))
    then ChatStream.group_id (PokeAction.chat_stream a)
    else group_id in
  let group_id :=
    if negb (truthy group_id) then
      match PokeAction.group_id a with
      | Some g => g
      | None => group_id
      end
    else group_id in
  if pyval_eqb group_id (Some NONE_TEXT) then None else group_id.

(** Lines 118-126: the ids written in the LLM response text. *)
Definition scan_llm_response (text : str) (group_id : pyval) : pyval * pyval :=
  let match_group := re_search GROUP_ID_PATTERN text in
  let match_user := re_search USER_ID_PATTERN text in
  let group_id := match match_group with Some g => Some g | None => group_id end in
  match match_user with
  | Some u => (Some u, group_id)
  | None => (None, None)
  end.

(** 根据用户名称或ID获取实际的用户ID和群组ID *)
Definition get_user_and_group_id : M (pyval * pyval) :=
  let* a := get_self in
  let user_id_or_name := dict_get (PokeAction.action_data a) "user_id" in
  let group_id := ambient_group_id a in
  (* 如果用户ID是纯数字，直接返回 *)
  if truthy user_id_or_name && isdigit (py_str user_id_or_name) then
    ret (Some (py_str user_id_or_name), group_id)
  else
    (* 通过人员API获取用户ID *)
    let* found :=
      (if truthy user_id_or_name then
         try_except
           (let* person_id := person_api_get_person_id_by_name user_id_or_name in
            if truthy person_id then
              let* uid := person_api_get_person_value person_id USER_ID_FIELD in
              if truthy uid then ret (Some uid) else ret None
            else ret None)
           (fun e => logger_error (LOG_PERSON_API ++ exc_str e) ;; ret None)
       else ret None) in
    match found with
    | Some uid => ret (uid, group_id)
    | None =>
      (* 从LLM响应文本中解析群ID和用户ID *)
      ret (scan_llm_response (PokeAction.llm_response_text a) group_id)
    end.

(** 向群聊中的指定用户发送戳一戳 *)
Definition _send_group_poke (group_id reply_id user_id : pyval)
  : M (bool * poke_result) :=
  try_except
    (let* a := get_self in
     let target_user_name :=
       dict_get_default (PokeAction.action_data a) "user_id" user_id in
     self_send_command SEND_POKE user_id
       (DISPLAY_OPEN ++ py_str target_user_name ++ DISPLAY_CLOSE) ;;
     ret (true, PokeAck ACK_STATUS ACK_MSG))
    (fun e =>
       logger_error (LOG_GROUP_FAILED ++ exc_str e) ;;
       ret (false, PokeError (exc_str e))).

(** 向好友发送戳一戳 *)
Definition _send_friend_poke (user_id : pyval) : M (bool * poke_result) :=
  try_except
    (let* a := get_self in
     let target_user_name :=
       dict_get_default (PokeAction.action_data a) "user_id" user_id in
     self_send_command SEND_POKE user_id
       (DISPLAY_OPEN ++ py_str target_user_name ++ DISPLAY_CLOSE) ;;
     ret (true, PokeAck ACK_STATUS ACK_MSG))
    (fun e =>
       logger_error (LOG_FRIEND_FAILED ++ exc_str e) ;;
       ret (false, PokeError (exc_str e))).

(** 执行戳一戳动作的主要方法; [debug] stands for the module constant
    [POKE_DEBUG]. *)
Definition execute_with (debug : bool) : M (bool * str) :=
  let* (user_id, group_id) := get_user_and_group_id in
  let* a := get_self in
  let reply_id := dict_get (PokeAction.action_data a) "reply_id" in
  (if debug then
     logger_info (LOG_PARAMS_USER ++ py_str user_id ++ LOG_PARAMS_GROUP ++ py_str group_id)
   else ret tt) ;;
  if negb (truthy user_id) then ret (false, MSG_NO_TARGET)
  else
    (* 频率限制：避免在5分钟内重复戳同一个用户 *)
    let* blocked :=
      (if pyval_eqb (PokeAction.last_poke_user a) user_id
          && pyval_eqb (PokeAction.last_poke_group a) group_id
       then
         let* now := time_now in
         ret (Qltb (float_sub now (PokeAction._last_poke_time a)) COOLDOWN)
       else ret false) in
    if blocked then ret (false, MSG_DUPLICATE)
    else
      (* 根据是否存在群组ID决定执行群聊戳一戳还是好友戳一戳 *)
      let* (ok, result) :=
        (if truthy group_id then
           let* r := _send_group_poke group_id reply_id user_id in
           modify_self (PokeAction.set_last_poke_group group_id) ;;
           ret r
         else
           let* r := _send_friend_poke user_id in
           modify_self (PokeAction.set_last_poke_group None) ;;
           ret r) in
      modify_self (PokeAction.set_last_poke_user user_id) ;;
      let* now := time_now in
      modify_self (PokeAction.set_last_poke_time now) ;;
      if ok : bool then
        let* a := get_self in
        let reason :=
          dict_get_default (PokeAction.action_data a) "reason"
            (py_or (PokeAction.reasoning a) (Some NO_REASON)) in
        database_api_store_action_info
          {| ActionInfo.chat_stream := PokeAction.chat_stream a;
             ActionInfo.action_build_into_prompt := true;
             ActionInfo.action_prompt_display := PROMPT_DISPLAY ++ py_str reason;
             ActionInfo.action_done := true;
             ActionInfo.action_data := {[ "reason" := reason ]};
             ActionInfo.action_name := ACTION_NAME |} ;;
        ret (true, MSG_SUCCESS)
      else
        (if debug then self_send_text (MSG_FAILED ++ fmt_result result) else ret tt) ;;
        ret (false, MSG_FAILED ++ fmt_result result).

Definition execute : M (bool * str) := execute_with POKE_DEBUG.
End Action.

(** ** Reading a trace *)

Definition sent_commands (tr : list event) : list (str * pyval * str) :=
  omap (fun ev => match ev with SendCommand c q d => Some (c, q, d) | _ => None end) tr.

Definition stored_actions (tr : list event) : list ActionInfo.t :=
  omap (fun ev => match ev with StoreActionInfo r => Some r | _ => None end) tr.

Definition sent_texts (tr : list event) : list str :=
  omap (fun ev => match ev with SendText t => Some t | _ => None end) tr.

Definition logged_errors (tr : list event) : list str :=
  omap (fun ev => match ev with LoggerError m => Some m | _ => None end) tr.

Definition resolver_calls (tr : list event) : list event :=
  omap (fun ev => match ev with
                  | GetPersonIdByName _ | GetPersonValue _ _ => Some ev
                  | _ => None
                  end) tr.

(** ** Observations of a run *)

Section Observations.
Context {U : UnicodeDB}.
Context {F : FloatArith}.
Variable host : Host.

(** The pair that [get_user_and_group_id] returns on instance [a], and
    the calls it makes on the way. *)
Definition resolved (a : PokeAction.t) : outcome (pyval * pyval) :=
  fst (get_user_and_group_id host (init_state a)).

Definition resolution_trace (a : PokeAction.t) : list event :=
  trace (snd (get_user_and_group_id host (init_state a))).

(** The gate of lines 162-166, with [time.time()] read as its first
    reading of the invocation. *)
Definition same_target (a : PokeAction.t) (user_id group_id : pyval) : bool :=
  pyval_eqb (PokeAction.last_poke_user a) user_id
  && pyval_eqb (PokeAction.last_poke_group a) group_id.

Definition cooldown_blocks (a : PokeAction.t) (user_id group_id : pyval) : bool :=
  same_target a user_id group_id
  && Qltb (float_sub (time_time host 0) (PokeAction._last_poke_time a)) COOLDOWN.

(** The reading of [time.time()] at line 178: the second one when the
    gate has read the clock, the first one otherwise. *)
Definition update_time (a : PokeAction.t) (user_id group_id : pyval) : Q :=
  time_time host (if same_target a user_id group_id then 1%nat else 0%nat).

Definition params_log (debug : bool) (user_id group_id : pyval) : list event :=
  if debug then
    [LoggerInfo (LOG_PARAMS_USER ++ py_str user_id ++ LOG_PARAMS_GROUP ++ py_str group_id)]
  else [].

Definition display_message (a : PokeAction.t) (user_id : pyval) : str :=
  DISPLAY_OPEN
    ++ py_str (dict_get_default (PokeAction.action_data a) "user_id" user_id)
    ++ DISPLAY_CLOSE.

(** The instance after the dispatch stage. *)
Definition after_dispatch (a : PokeAction.t) (user_id group_id : pyval) : PokeAction.t :=
  PokeAction.set_last_poke_time (update_time a user_id group_id)
    (PokeAction.set_last_poke_user user_id
       (PokeAction.set_last_poke_group (if truthy group_id then group_id else None) a)).

Definition reason_of (a : PokeAction.t) : pyval :=
  dict_get_default (PokeAction.action_data a) "reason"
    (py_or (PokeAction.reasoning a) (Some NO_REASON)).

Definition log_record (a : PokeAction.t) : ActionInfo.t :=
  {| ActionInfo.chat_stream := PokeAction.chat_stream a;
     ActionInfo.action_build_into_prompt := true;
     ActionInfo.action_prompt_display := PROMPT_DISPLAY ++ py_str (reason_of a);
     ActionInfo.action_done := true;
     ActionInfo.action_data := {[ "reason" := reason_of a ]};
     ActionInfo.action_name := ACTION_NAME |}.

Definition failure_log (group_id : pyval) (e : exception) : event :=
  LoggerError ((if truthy group_id then LOG_GROUP_FAILED else LOG_FRIEND_FAILED)
                 ++ exc_str e).

(** The four ways through [execute]. *)
Inductive path (debug : bool) (a : PokeAction.t) (u g : pyval)
  : outcome (bool * str) * State -> Prop :=
| path_no_target :
    truthy u = false ->
    path debug a u g
      (Returns (false, MSG_NO_TARGET),
       {| self := a;
          trace := resolution_trace a ++ params_log debug u g;
          clock_reads := 0 |})
| path_blocked :
    truthy u = true ->
    cooldown_blocks a u g = true ->
    path debug a u g
      (Returns (false, MSG_DUPLICATE),
       {| self := a;
          trace := resolution_trace a ++ params_log debug u g;
          clock_reads := 1 |})
| path_success :
    truthy u = true ->
    cooldown_blocks a u g = false ->
    send_command host SEND_POKE u (display_message a u) = Returns tt ->
    path debug a u g
      (Returns (true, MSG_SUCCESS),
       {| self := after_dispatch a u g;
          trace := resolution_trace a ++ params_log debug u g
                     ++ [SendCommand SEND_POKE u (display_message a u);
                         StoreActionInfo (log_record a)];
          clock_reads := S (if same_target a u g then 1 else 0) |})
| path_failed e :
    truthy u = true ->
    cooldown_blocks a u g = false ->
    send_command host SEND_POKE u (display_message a u) = Raises e ->
    path debug a u g
      (Returns (false, MSG_FAILED ++ exc_str e),
       {| self := after_dispatch a u g;
          trace := resolution_trace a ++ params_log debug u g
                     ++ [SendCommand SEND_POKE u (display_message a u);
                         failure_log g e]
                     ++ (if debug then [SendText (MSG_FAILED ++ exc_str e)] else []);
          clock_reads := S (if same_target a u g then 1 else 0) |}).
End Observations.

Arguments resolved : simpl never.
Arguments resolution_trace : simpl never.

(** ** Target resolution, step by step *)

(** [action_data.get("user_id")]. *)
Definition user_reference (a : PokeAction.t) : pyval :=
  dict_get (PokeAction.action_data a) "user_id".

(** Lines 103-116 return nothing: the reference is missing or empty, or
    it is not numeric and the person API raises or yields no id. *)
Definition lookup_fails {U : UnicodeDB} (host : Host) (a : PokeAction.t) : bool :=
  let ref := user_reference a in
  if truthy ref then
    negb (isdigit (py_str ref))
    && match get_person_id_by_name host ref with
       | Raises _ => true
       | Returns pid =>
         if truthy pid then
           match get_person_value host pid USER_ID_FIELD with
           | Raises _ => true
           | Returns uid => negb (truthy uid)
           end
         else true
       end
  else true.

Section Search.
Context {U : UnicodeDB}.
Context {F : FloatArith}.

(** No match of [lit\s*(\d+)] starts inside [x] when [x] is followed
    by [y]. *)
Fixpoint no_start (lit x y : str) : Prop :=
  match x with
  | [] => True
  | c :: x' => match_at lit (c :: x' ++ y) = None /\ no_start lit x' y
  end.

(** The text does not go on with a decimal digit. *)
Definition no_digit_ahead (s : str) : Prop :=
  match s with
  | c :: _ => uc_decimal c = false
  | [] => True
  end.
End Search.

Definition FIELD_GROUP : str := Eval vm_compute in py "group_id: 123".
Definition FIELD_USER : str := Eval vm_compute in py "user_id: 456".
Definition ID_123 : str := Eval vm_compute in py "123".
Definition ID_456 : str := Eval vm_compute in py "456".

(** ** The group id before the user lookup *)

(** [action_data.get("group_id")]. *)
Definition group_reference (a : PokeAction.t) : pyval :=
  dict_get (PokeAction.action_data a) "group_id".

(** The group id of the message metadata, when the instance has a message
    with a [message_info]. *)
Definition metadata_group (a : PokeAction.t) : option pyval :=
  match PokeAction.message a with
  | Some m =>
    match Message.message_info m with
    | Some info => Some (MessageInfo.group_id info)
    | None => None
    end
  | None => None
  end.

(** [None] for the text [None], the value itself otherwise. *)
Definition normalize_group (v : pyval) : pyval :=
  if pyval_eqb v (Some NONE_TEXT) then None else v.

(** The instance with the [group_id] entry of [action_data] removed. *)
Definition without_group_reference (a : PokeAction.t) : PokeAction.t :=
  {| PokeAction.action_data := delete "group_id" (PokeAction.action_data a);
     PokeAction.message := PokeAction.message a;
     PokeAction.chat_stream := PokeAction.chat_stream a;
     PokeAction.group_id := PokeAction.group_id a;
     PokeAction.reasoning := PokeAction.reasoning a;
     PokeAction.llm_response_text := PokeAction.llm_response_text a;
     PokeAction.last_poke_user := PokeAction.last_poke_user a;
     PokeAction.last_poke_group := PokeAction.last_poke_group a;
     PokeAction._last_poke_time := PokeAction._last_poke_time a |}.

(** ** Concrete invocations *)

Definition make_action (data : gmap string pyval) (info : option MessageInfo.t)
    (attr : option pyval) (text : str) : PokeAction.t :=
  {| PokeAction.action_data := data;
     PokeAction.message := Some {| Message.message_info := info |};
     PokeAction.chat_stream := {| ChatStream.group_id := None |};
     PokeAction.group_id := attr;
     PokeAction.reasoning := None;
     PokeAction.llm_response_text := text;
     PokeAction.last_poke_user := None;
     PokeAction.last_poke_group := None;
     PokeAction._last_poke_time := 0%Q |}.

(** A host whose person API knows nobody, whose transport accepts every
    command and whose clock starts at [t0]. *)
Definition accepting_host (t0 : Z) : Host :=
  {| get_person_id_by_name _ := Returns None;
     get_person_value _ _ := Returns None;
     send_command _ _ _ := Returns tt;
     time_time n := inject_Z (t0 + Z.of_nat n) |}.

(** A host whose person API and transport both raise. *)
Definition failing_host : Host :=
  {| get_person_id_by_name _ := Raises (Exception (py "person store down"));
     get_person_value _ _ := Raises (Exception (py "person store down"));
     send_command _ _ _ := Raises (Exception (py "timeout"));
     time_time n := inject_Z (1000 + Z.of_nat n) |}.


Definition numeric_action : PokeAction.t :=
  make_action {[ "user_id" := Some (py "10001"); "group_id" := Some (py "777") ]}
    None None [].

Definition named_action : PokeAction.t :=
  make_action {[ "user_id" := Some (py "alice") ]} None None [].

Definition text_action : PokeAction.t :=
  make_action ∅ None None (py "group_id: 123 user_id: 456").

Definition lost_action : PokeAction.t :=
  make_action {[ "group_id" := Some (py "777") ]} None None (py "hello").

(** An explicit group reference [None] in a chat whose message metadata
    carry group 777. *)
Definition none_action : PokeAction.t :=
  make_action {[ "user_id" := Some (py "10001"); "group_id" := Some (py "None") ]}
    (Some {| MessageInfo.group_id := Some (py "777") |}) None [].

Definition metadata_action : PokeAction.t :=
  make_action ∅ (Some {| MessageInfo.group_id := Some (py "777") |}) None [].

Definition attribute_action : PokeAction.t :=
  make_action ∅ None (Some (Some (py "888"))) [].

(** The instance after a first, accepted poke at user 10001 in group 777. *)
Definition poked_action : PokeAction.t :=
  self (snd (execute (accepting_host 1000) (init_state numeric_action))).

(** ** Further observations *)

(** The instance with another [llm_response_text]. *)
Definition with_llm_response_text (text : str) (a : PokeAction.t) : PokeAction.t :=
  {| PokeAction.action_data := PokeAction.action_data a;
     PokeAction.message := PokeAction.message a;
     PokeAction.chat_stream := PokeAction.chat_stream a;
     PokeAction.group_id := PokeAction.group_id a;
     PokeAction.reasoning := PokeAction.reasoning a;
     PokeAction.llm_response_text := text;
     PokeAction.last_poke_user := PokeAction.last_poke_user a;
     PokeAction.last_poke_group := PokeAction.last_poke_group a;
     PokeAction._last_poke_time := PokeAction._last_poke_time a |}.

(** The instance with another [action_data]. *)
Definition with_action_data (d : gmap string pyval) (a : PokeAction.t) : PokeAction.t :=
  {| PokeAction.action_data := d;
     PokeAction.message := PokeAction.message a;
     PokeAction.chat_stream := PokeAction.chat_stream a;
     PokeAction.group_id := PokeAction.group_id a;
     PokeAction.reasoning := PokeAction.reasoning a;
     PokeAction.llm_response_text := PokeAction.llm_response_text a;
     PokeAction.last_poke_user := PokeAction.last_poke_user a;
     PokeAction.last_poke_group := PokeAction.last_poke_group a;
     PokeAction._last_poke_time := PokeAction._last_poke_time a |}.

(** The two instances agree on every attribute but the cooldown fields. *)
Definition same_attributes (a b : PokeAction.t) : Prop :=
  PokeAction.action_data a = PokeAction.action_data b
  /\ PokeAction.message a = PokeAction.message b
  /\ PokeAction.chat_stream a = PokeAction.chat_stream b
  /\ PokeAction.group_id a = PokeAction.group_id b
  /\ PokeAction.reasoning a = PokeAction.reasoning b
  /\ PokeAction.llm_response_text a = PokeAction.llm_response_text b.

(** A stored id is [None] or a non-empty string. *)
Definition stored_id_ok (v : pyval) : Prop := v = None \/ truthy v = true.

(** The stored target of the gate: both ids are [None] or non-empty, and
    the group is not the text [None]. *)
Definition cooldown_fields_ok (a : PokeAction.t) : Prop :=
  stored_id_ok (PokeAction.last_poke_user a)
  /\ stored_id_ok (PokeAction.last_poke_group a)
  /\ PokeAction.last_poke_group a <> Some NONE_TEXT.

(** The name shown in the display annotation of the command: the [user_id]
    entry of [action_data] when the key is there, the resolved id
    otherwise. *)
Definition target_user_name (a : PokeAction.t) (user_id : pyval) : pyval :=
  match PokeAction.action_data a !! "user_id" with
  | Some v => v
  | None => user_id
  end.

(** The attributes of [next] with the cooldown fields of [prev]: the
    instance at its next invocation. *)
Definition carry_cooldown (prev next : PokeAction.t) : PokeAction.t :=
  {| PokeAction.action_data := PokeAction.action_data next;
     PokeAction.message := PokeAction.message next;
     PokeAction.chat_stream := PokeAction.chat_stream next;
     PokeAction.group_id := PokeAction.group_id next;
     PokeAction.reasoning := PokeAction.reasoning next;
     PokeAction.llm_response_text := PokeAction.llm_response_text next;
     PokeAction.last_poke_user := PokeAction.last_poke_user prev;
     PokeAction.last_poke_group := PokeAction.last_poke_group prev;
     PokeAction._last_poke_time := PokeAction._last_poke_time prev |}.

(** The instance after a series of invocations of [execute], each with
    its own collaborators and its own attributes, the cooldown fields
    being carried from one invocation to the next. *)
Fixpoint run_session {U : UnicodeDB} {F : FloatArith} (debug : bool) (a : PokeAction.t)
    (steps : list (Host * PokeAction.t)) : PokeAction.t :=
  match steps with
  | [] => a
  | (host, next) :: rest =>
    run_session debug
      (self (snd (execute_with host debug (init_state (carry_cooldown a next)))))
      rest
  end.

(** An instance as the class declares it: the cooldown fields have their
    defaults. *)
Definition fresh (a : PokeAction.t) : Prop :=
  PokeAction.last_poke_user a = None
  /\ PokeAction.last_poke_group a = None
  /\ PokeAction._last_poke_time a = 0%Q.

(** ** Further concrete invocations *)

(** An explicit, empty group reference and no ambient group. *)
Definition empty_group_action : PokeAction.t :=
  make_action {[ "user_id" := Some (py "10001"); "group_id" := Some [] ]}
    None None [].

(** The instance after a first poke of [empty_group_action]. *)
Definition empty_group_poked : PokeAction.t :=
  self (snd (execute (accepting_host 1000) (init_state empty_group_action))).

(** The poked instance, asked for the same user in group 888. *)
Definition regrouped_action : PokeAction.t :=
  with_action_data
    {[ "user_id" := Some (py "10001"); "group_id" := Some (py "888") ]}
    poked_action.

Definition sample_text : str := Eval vm_compute in py "hello user_id: 42!".

Definition sample_session : list (Host * PokeAction.t) :=
  [(accepting_host 1000, numeric_action); (failing_host, empty_group_action);
   (accepting_host 1100, lost_action)].

(** * Properties *)

(** ** Basic facts *)


Lemma Qltb_ge (x y : Q) : Qltb x y = false <-> (y <= x)%Q.
Proof.
  unfold Qltb. rewrite negb_false_iff. apply Qle_bool_iff.
Qed.

Lemma pyval_eqb_eq (a b : pyval) : pyval_eqb a b = true <-> a = b.
Proof. unfold pyval_eqb. apply bool_decide_eq_true. Qed.


Lemma sent_commands_app (t1 t2 : list event) :
  sent_commands (t1 ++ t2) = sent_commands t1 ++ sent_commands t2.
Proof. apply omap_app. Qed.

Lemma stored_actions_app (t1 t2 : list event) :
  stored_actions (t1 ++ t2) = stored_actions t1 ++ stored_actions t2.
Proof. apply omap_app. Qed.

Lemma sent_texts_app (t1 t2 : list event) :
  sent_texts (t1 ++ t2) = sent_texts t1 ++ sent_texts t2.
Proof. apply omap_app. Qed.

Section Resolution.
Context {U : UnicodeDB}.
Context {F : FloatArith}.
Variable host : Host.

Lemma get_user_and_group_id_frame (s : State) :
  get_user_and_group_id host s
  = (resolved host (self s),
     {| self := self s; trace := trace s ++ resolution_trace host (self s);
        clock_reads := clock_reads s |}).
Proof.
  destruct s as [a tr n].
  unfold resolved, resolution_trace, get_user_and_group_id, bind, get_self,
    try_except, ret, person_api_get_person_id_by_name,
    person_api_get_person_value, logger_error, call, init_state; simpl.
  destruct (truthy (dict_get (PokeAction.action_data a) "user_id")
            && isdigit (py_str (dict_get (PokeAction.action_data a) "user_id")));
    simpl; [by rewrite app_nil_r|].
  destruct (truthy (dict_get (PokeAction.action_data a) "user_id")); simpl;
    [|by rewrite app_nil_r].
  destruct (get_person_id_by_name host _) as [pid|e]; simpl.
  - destruct (truthy pid); simpl; [|reflexivity].
    destruct (get_person_value host pid USER_ID_FIELD) as [uid|e]; simpl.
    + destruct (truthy uid); simpl; by rewrite <- ?app_assoc.
    + by rewrite <- ?app_assoc.
  - by rewrite <- ?app_assoc.
Qed.

Lemma get_user_and_group_id_init (a : PokeAction.t) :
  get_user_and_group_id host (init_state a)
  = (resolved host a,
     {| self := a; trace := resolution_trace host a; clock_reads := 0 |}).
Proof. by rewrite get_user_and_group_id_frame. Qed.
End Resolution.

Section Execute.
Context {U : UnicodeDB}.
Context {F : FloatArith}.
Variable host : Host.

Lemma execute_no_target debug a user_id group_id :
  resolved host a = Returns (user_id, group_id) ->
  truthy user_id = false ->
  execute_with host debug (init_state a)
  = (Returns (false, MSG_NO_TARGET),
     {| self := a;
        trace := resolution_trace host a ++ params_log debug user_id group_id;
        clock_reads := 0 |}).
Proof.
  intros Hres Hu.
  unfold execute_with, bind. rewrite get_user_and_group_id_init, Hres. simpl.
  unfold get_self, logger_info, call, ret, params_log. simpl.
  destruct debug; simpl; rewrite Hu; simpl; by rewrite ?app_nil_r.
Qed.

Lemma execute_blocked debug a user_id group_id :
  resolved host a = Returns (user_id, group_id) ->
  truthy user_id = true ->
  cooldown_blocks host a user_id group_id = true ->
  execute_with host debug (init_state a)
  = (Returns (false, MSG_DUPLICATE),
     {| self := a;
        trace := resolution_trace host a ++ params_log debug user_id group_id;
        clock_reads := 1 |}).
Proof.
  intros Hres Hu Hb.
  unfold cooldown_blocks, same_target in Hb. apply andb_true_iff in Hb as [Hsame Hlt].
  unfold execute_with, bind. rewrite get_user_and_group_id_init, Hres. simpl.
  unfold get_self, logger_info, call, ret, params_log, time_now. simpl.
  destruct debug; simpl; rewrite Hu; simpl; rewrite Hsame; simpl; rewrite Hlt;
    by rewrite ?app_nil_r.
Qed.

Lemma execute_dispatch_ok debug a user_id group_id :
  resolved host a = Returns (user_id, group_id) ->
  truthy user_id = true ->
  cooldown_blocks host a user_id group_id = false ->
  send_command host SEND_POKE user_id (display_message a user_id) = Returns tt ->
  execute_with host debug (init_state a)
  = (Returns (true, MSG_SUCCESS),
     {| self := after_dispatch host a user_id group_id;
        trace := resolution_trace host a ++ params_log debug user_id group_id
                   ++ [SendCommand SEND_POKE user_id (display_message a user_id);
                       StoreActionInfo (log_record a)];
        clock_reads := S (if same_target a user_id group_id then 1 else 0) |}).
Proof.
  intros Hres Hu Hb Hsend.
  unfold cooldown_blocks in Hb. unfold after_dispatch, update_time.
  unfold execute_with, bind. rewrite get_user_and_group_id_init, Hres. simpl.
  unfold get_self, logger_info, call, ret, params_log, time_now. simpl.
  destruct debug; simpl; rewrite Hu; simpl.
  all: fold (same_target a user_id group_id).
  all: destruct (same_target a user_id group_id); simpl in *; rewrite ?Hb; simpl.
  all: destruct (truthy group_id); simpl.
  all: unfold _send_group_poke, _send_friend_poke, try_except, bind, get_self,
         self_send_command, call, ret, modify_self, database_api_store_action_info; simpl.
  all: fold (display_message a user_id); rewrite Hsend; simpl.
  all: rewrite <- ?app_assoc; simpl; reflexivity.
Qed.

Lemma execute_dispatch_failed debug a user_id group_id e :
  resolved host a = Returns (user_id, group_id) ->
  truthy user_id = true ->
  cooldown_blocks host a user_id group_id = false ->
  send_command host SEND_POKE user_id (display_message a user_id) = Raises e ->
  execute_with host debug (init_state a)
  = (Returns (false, MSG_FAILED ++ exc_str e),
     {| self := after_dispatch host a user_id group_id;
        trace := resolution_trace host a ++ params_log debug user_id group_id
                   ++ [SendCommand SEND_POKE user_id (display_message a user_id);
                       failure_log group_id e]
                   ++ (if debug then [SendText (MSG_FAILED ++ exc_str e)] else []);
        clock_reads := S (if same_target a user_id group_id then 1 else 0) |}).
Proof.
  intros Hres Hu Hb Hsend.
  unfold cooldown_blocks in Hb. unfold after_dispatch, update_time, failure_log.
  unfold execute_with, bind. rewrite get_user_and_group_id_init, Hres. simpl.
  unfold get_self, logger_info, call, ret, params_log, time_now. simpl.
  destruct debug; simpl; rewrite Hu; simpl.
  all: fold (same_target a user_id group_id).
  all: destruct (same_target a user_id group_id); simpl in *; rewrite ?Hb; simpl.
  all: destruct (truthy group_id); simpl.
  all: unfold _send_group_poke, _send_friend_poke, try_except, bind, get_self,
         self_send_command, self_send_text, logger_error, call, ret, modify_self; simpl.
  all: fold (display_message a user_id); rewrite Hsend; simpl.
  all: rewrite <- ?app_assoc; simpl; reflexivity.
Qed.
End Execute.

(** ** Facts about the pattern search *)

Section TextFacts.
Context {U : UnicodeDB}.
Context {F : FloatArith}.

Lemma starts_with_spec (lit s : str) :
  starts_with lit s = true <-> exists r, s = lit ++ r.
Proof.
  revert s. induction lit as [|c lit IH]; intros s; simpl.
  - split; eauto.
  - destruct s as [|d s].
    + split; [discriminate|]. intros [r Hr]. discriminate.
    + rewrite andb_true_iff, N.eqb_eq, IH. split.
      * intros [-> [r ->]]. eauto.
      * intros [r Hr]. injection Hr as -> ->. eauto.
Qed.

Lemma match_digits_nonempty (s d : str) : match_digits s = Some d -> d <> [].
Proof.
  unfold match_digits. destruct (take_decimals s); [discriminate|].
  intros [= <-]. discriminate.
Qed.

Lemma match_ws_digits_nonempty (s d : str) : match_ws_digits s = Some d -> d <> [].
Proof.
  induction s as [|c t IH]; simpl; [discriminate|].
  destruct (uc_space c).
  - destruct (match_ws_digits t) as [d'|] eqn:E.
    + intros [= <-]. by apply IH.
    + apply match_digits_nonempty.
  - apply match_digits_nonempty.
Qed.

Lemma re_search_nonempty (lit s d : str) : re_search lit s = Some d -> d <> [].
Proof.
  induction s as [|c t IH]; simpl.
  - unfold match_at. destruct (starts_with lit []); [|discriminate].
    destruct (match_ws_digits (drop (length lit) [])) eqn:E; [|discriminate].
    intros [= <-]. by apply match_ws_digits_nonempty in E.
  - destruct (match_at lit (c :: t)) as [d'|] eqn:E.
    + intros [= <-]. unfold match_at in E.
      destruct (starts_with lit (c :: t)); [|discriminate].
      by apply match_ws_digits_nonempty in E.
    + apply IH.
Qed.

Lemma re_search_skip (lit x y : str) :
  no_start lit x y -> re_search lit (x ++ y) = re_search lit y.
Proof.
  induction x as [|c x IH]; simpl; [done|].
  intros [Hc Hx]. rewrite Hc. destruct y; simpl; by apply IH.
Qed.

Lemma re_search_here (lit s d : str) :
  match_at lit s = Some d -> re_search lit s = Some d.
Proof. intros H. destruct s; simpl; by rewrite H. Qed.

Lemma no_start_app (lit x1 x2 y : str) :
  no_start lit x1 (x2 ++ y) -> no_start lit x2 y -> no_start lit (x1 ++ x2) y.
Proof.
  induction x1 as [|c x1 IH]; simpl; [done|].
  intros [Hc H1] H2. rewrite <- app_assoc. split; [done|]. by apply IH.
Qed.

(** A literal that holds a colon does not begin inside a colon-free
    stretch [b], unless a proper tail of it begins what follows. *)
Lemma starts_with_straddle (lit b y : str) :
  b <> [] -> 58 ∉ b -> 58 ∈ lit ->
  (forall k, (0 < k < length lit)%nat -> starts_with (drop k lit) y = false) ->
  starts_with lit (b ++ y) = false.
Proof.
  intros Hb Hfree Hlit Htails.
  destruct (starts_with lit (b ++ y)) eqn:E; [|reflexivity]. exfalso.
  apply starts_with_spec in E as [r Hr].
  apply app_eq_app in Hr as [k [[-> ->]|[-> ->]]].
  - apply Hfree. apply elem_of_app. by left.
  - destruct k as [|ck k].
    + rewrite app_nil_r in Hlit. contradiction.
    + specialize (Htails (length b)).
      rewrite drop_app_length in Htails.
      assert (Hlen : (0 < length b < length (b ++ ck :: k))%nat).
      { rewrite length_app. simpl. destruct b; [done|]. simpl. lia. }
      specialize (Htails Hlen).
      assert (Ht : starts_with (ck :: k) ((ck :: k) ++ r) = true)
        by (apply starts_with_spec; eauto).
      congruence.
Qed.

Lemma no_start_colon_free (lit x y : str) :
  58 ∉ x -> 58 ∈ lit ->
  (forall k, (0 < k < length lit)%nat -> starts_with (drop k lit) y = false) ->
  no_start lit x y.
Proof.
  intros Hfree Hlit Htails. induction x as [|c x IH]; simpl; [done|].
  split.
  - unfold match_at.
    change (c :: x ++ y) with ((c :: x) ++ y).
    by rewrite starts_with_straddle.
  - apply IH. intros Hin. apply Hfree. by right.
Qed.
End TextFacts.

Section Fields.
Context {U : UnicodeDB}.
Context {F : FloatArith}.

Ltac ascii_classes :=
  repeat match goal with
         | |- context [uc_space ?c] => rewrite (uc_space_ascii c) by lia
         | |- context [uc_decimal ?c] => rewrite (uc_decimal_ascii c) by lia
         end.

Lemma take_decimals_stop (s : str) : no_digit_ahead s -> take_decimals s = [].
Proof. destruct s as [|c s]; simpl; [done|]. by intros ->. Qed.

Lemma no_digit_ahead_app (x y : str) :
  no_digit_ahead x -> no_digit_ahead y -> no_digit_ahead (x ++ y).
Proof. destruct x; simpl; done. Qed.

Lemma no_digit_ahead_field_group (s : str) : no_digit_ahead (FIELD_GROUP ++ s).
Proof. simpl. ascii_classes. reflexivity. Qed.

Lemma no_digit_ahead_field_user (s : str) : no_digit_ahead (FIELD_USER ++ s).
Proof. simpl. ascii_classes. reflexivity. Qed.

Local Transparent GROUP_ID_PATTERN USER_ID_PATTERN.

Lemma match_at_field_group (rest : str) :
  no_digit_ahead rest ->
  match_at GROUP_ID_PATTERN (FIELD_GROUP ++ rest) = Some ID_123.
Proof.
  intros Hrest. unfold match_at. simpl. ascii_classes. simpl.
  unfold match_digits. simpl. ascii_classes. simpl.
  by rewrite take_decimals_stop.
Qed.

Lemma match_at_field_user (rest : str) :
  no_digit_ahead rest ->
  match_at USER_ID_PATTERN (FIELD_USER ++ rest) = Some ID_456.
Proof.
  intros Hrest. unfold match_at. simpl. ascii_classes. simpl.
  unfold match_digits. simpl. ascii_classes. simpl.
  by rewrite take_decimals_stop.
Qed.

Ltac tails :=
  let k := fresh "k" in
  let H1 := fresh "H" in
  let H2 := fresh "H" in
  intros k [H1 H2]; simpl in H2;
  do 9 (destruct k as [|k]; [first [lia | reflexivity]|]);
  lia.

Ltac colon_in := simpl; repeat first [by left | right].

(** Both patterns find their field in [pre ++ group ++ mid ++ user ++ post]. *)
Lemma re_search_group_then_user (pre mid post : str) :
  58 ∉ pre -> 58 ∉ mid -> no_digit_ahead mid -> no_digit_ahead post ->
  let text := pre ++ FIELD_GROUP ++ mid ++ FIELD_USER ++ post in
  re_search GROUP_ID_PATTERN text = Some ID_123
  /\ re_search USER_ID_PATTERN text = Some ID_456.
Proof.
  intros Hpre Hmid Hdm Hdp text. subst text. split.
  - rewrite re_search_skip.
    + apply re_search_here, match_at_field_group.
      apply no_digit_ahead_app; [done|]. apply no_digit_ahead_field_user.
    + apply no_start_colon_free; [done|colon_in|]. tails.
  - rewrite re_search_skip; [rewrite re_search_skip; [rewrite re_search_skip|]|].
    + by apply re_search_here, match_at_field_user.
    + apply no_start_colon_free; [done|colon_in|tails].
    + simpl. unfold match_at. simpl. tauto.
    + apply no_start_colon_free; [done|colon_in|tails].
Qed.

(** The same with the fields in the other order. *)
Lemma re_search_user_then_group (pre mid post : str) :
  58 ∉ pre -> 58 ∉ mid -> no_digit_ahead mid -> no_digit_ahead post ->
  let text := pre ++ FIELD_USER ++ mid ++ FIELD_GROUP ++ post in
  re_search GROUP_ID_PATTERN text = Some ID_123
  /\ re_search USER_ID_PATTERN text = Some ID_456.
Proof.
  intros Hpre Hmid Hdm Hdp text. subst text. split.
  - rewrite re_search_skip; [rewrite re_search_skip; [rewrite re_search_skip|]|].
    + by apply re_search_here, match_at_field_group.
    + apply no_start_colon_free; [done|colon_in|tails].
    + simpl. unfold match_at. simpl. tauto.
    + apply no_start_colon_free; [done|colon_in|tails].
  - rewrite re_search_skip.
    + apply re_search_here, match_at_field_user.
      apply no_digit_ahead_app; [done|]. apply no_digit_ahead_field_group.
    + apply no_start_colon_free; [done|colon_in|tails].
Qed.
End Fields.

(** ** Target resolution *)

Section ResolutionClaims.
Context {U : UnicodeDB}.
Context {F : FloatArith}.
Variable host : Host.

Local Arguments truthy : simpl never.
Local Arguments isdigit : simpl never.

Ltac run_resolution :=
  unfold resolved, resolution_trace, get_user_and_group_id, bind, get_self,
    try_except, ret, person_api_get_person_id_by_name,
    person_api_get_person_value, logger_error, call, init_state; simpl.

Lemma isdigit_all (s : str) :
  isdigit s = true <-> s <> [] /\ Forall (fun c => uc_isdigit c = true) s.
Proof.
  unfold isdigit. destruct s as [|c s]; [split; [discriminate|intros [? _]; done]|].
  rewrite forallb_forall, Forall_forall. split.
  - intros H. split; [discriminate|]. intros x Hx. apply H. by apply list_elem_of_In.
  - intros [_ H] x Hx. apply H. by apply list_elem_of_In.
Qed.

Lemma resolved_scan (a : PokeAction.t) :
  lookup_fails host a = true ->
  resolved host a
  = Returns (scan_llm_response (PokeAction.llm_response_text a) (ambient_group_id a)).
Proof.
  unfold lookup_fails, user_reference. run_resolution.
  destruct (truthy (dict_get (PokeAction.action_data a) "user_id")); simpl; [|done].
  destruct (isdigit _); simpl; [discriminate|].
  destruct (get_person_id_by_name host _) as [pid|e]; simpl; [|done].
  destruct (truthy pid); simpl; [|done].
  destruct (get_person_value host pid USER_ID_FIELD) as [uid|e]; simpl; [|done].
  by destruct (truthy uid).
Qed.

(** When the lookup does not fail, lines 103-116 return a non-empty user
    id with the group id found so far. *)
Lemma lookup_succeeds (a : PokeAction.t) :
  lookup_fails host a = false ->
  exists uid, truthy uid = true
              /\ resolved host a = Returns (uid, ambient_group_id a).
Proof.
  unfold lookup_fails, user_reference. run_resolution.
  destruct (truthy (dict_get (PokeAction.action_data a) "user_id")) eqn:Ht;
    simpl; [|discriminate].
  destruct (isdigit _) eqn:Hd; simpl.
  - intros _. eexists. split; [|reflexivity].
    destruct (dict_get (PokeAction.action_data a) "user_id") as [[|c r]|]; done.
  - destruct (get_person_id_by_name host _) as [pid|e]; simpl; [|discriminate].
    destruct (truthy pid); simpl; [|discriminate].
    destruct (get_person_value host pid USER_ID_FIELD) as [uid|e]; simpl;
      [|discriminate].
    destruct (truthy uid) eqn:Hu; simpl; [|discriminate].
    intros _. by exists uid.
Qed.

(** C3. A user reference that is present and made of digits only is
    returned as it is, with the group id of lines 90-101, and neither the
    person API nor anything else is called, whatever the person API
    would have answered. *)
Theorem numeric_reference_short_circuits (a : PokeAction.t) (ref : str) :
  PokeAction.action_data a !! "user_id" = Some (Some ref) ->
  ref <> [] ->
  Forall (fun c => uc_isdigit c = true) ref ->
  resolved host a = Returns (Some ref, ambient_group_id a)
  /\ resolver_calls (resolution_trace host a) = []
  /\ resolution_trace host a = [].
Proof.
  intros Hget Hne Hall.
  assert (Hd : isdigit ref = true) by (by apply isdigit_all).
  assert (Ht : truthy (Some ref) = true) by (by destruct ref).
  run_resolution. unfold dict_get. rewrite Hget. simpl.
  by rewrite Hd, Ht.
Qed.


(** C5. When lines 103-116 return nothing, a response text that holds
    the fields [group_id: 123] and [user_id: 456], in either order, with
    no colon before or between them and no digit right after them,
    resolves to user 456 in group 123. In general the user id found by
    the user pattern is returned with the group id found by the group
    pattern, or with the group id known so far when that pattern finds
    nothing. *)
Theorem scan_fields_from_text (a : PokeAction.t) :
  lookup_fails host a = true ->
  (forall pre mid post,
      58 ∉ pre -> 58 ∉ mid -> no_digit_ahead mid -> no_digit_ahead post ->
      PokeAction.llm_response_text a = pre ++ FIELD_GROUP ++ mid ++ FIELD_USER ++ post
      \/ PokeAction.llm_response_text a = pre ++ FIELD_USER ++ mid ++ FIELD_GROUP ++ post ->
      resolved host a = Returns (Some ID_456, Some ID_123))
  /\ (forall u,
         re_search USER_ID_PATTERN (PokeAction.llm_response_text a) = Some u ->
         resolved host a
         = Returns (Some u,
                    match re_search GROUP_ID_PATTERN (PokeAction.llm_response_text a) with
                    | Some g => Some g
                    | None => ambient_group_id a
                    end)).
Proof.
  intros Hfail. rewrite (resolved_scan a Hfail). unfold scan_llm_response. split.
  - intros pre mid post Hpre Hmid Hdm Hdp [-> | ->].
    + destruct (re_search_group_then_user pre mid post) as [-> ->]; done.
    + destruct (re_search_user_then_group pre mid post) as [-> ->]; done.
  - intros u ->. reflexivity.
Qed.
End ResolutionClaims.

(** ** Execution paths *)

Section Paths.
Context {U : UnicodeDB}.
Context {F : FloatArith}.
Variable host : Host.

Local Arguments truthy : simpl never.
Local Arguments isdigit : simpl never.

Ltac run_resolution :=
  unfold resolved, resolution_trace, get_user_and_group_id, bind, get_self,
    try_except, ret, person_api_get_person_id_by_name,
    person_api_get_person_value, logger_error, call, init_state; simpl.

(** The resolution never raises; it returns a non-empty user id or
    nothing at all; it sends no command, stores no record and sends no
    text. *)
Lemma resolved_total (a : PokeAction.t) :
  exists u g, resolved host a = Returns (u, g)
              /\ (truthy u = true \/ (u = None /\ g = None)).
Proof.
  run_resolution.
  set (ref := dict_get (PokeAction.action_data a) "user_id").
  assert (Hscan : forall g,
    let r := scan_llm_response (PokeAction.llm_response_text a) g in
    truthy (fst r) = true \/ (fst r = None /\ snd r = None)).
  { intros g. unfold scan_llm_response.
    destruct (re_search USER_ID_PATTERN _) as [u|] eqn:E; simpl; [|by right].
    left. apply re_search_nonempty in E. by destruct u. }
  pose proof (Hscan (ambient_group_id a)) as Hs.
  destruct (scan_llm_response _ _) as [su sg] eqn:Es. simpl in Hs.
  destruct (truthy ref) eqn:Ht; simpl.
  - destruct (isdigit (py_str ref)) eqn:Hd; simpl.
    + eexists _, _. split; [reflexivity|]. left.
      destruct ref as [[|c r]|]; done.
    + destruct (get_person_id_by_name host ref) as [pid|e]; simpl;
        [|by eexists _, _].
      destruct (truthy pid); simpl; [|by eexists _, _].
      destruct (get_person_value host pid USER_ID_FIELD) as [uid|e]; simpl;
        [|by eexists _, _].
      destruct (truthy uid) eqn:Hu; simpl; [|by eexists _, _].
      eexists _, _. split; [reflexivity|]. by left.
  - by eexists _, _.
Qed.

Lemma resolution_trace_quiet (a : PokeAction.t) :
  sent_commands (resolution_trace host a) = []
  /\ stored_actions (resolution_trace host a) = []
  /\ sent_texts (resolution_trace host a) = [].
Proof.
  run_resolution.
  destruct (truthy _ && isdigit _); simpl; [done|].
  destruct (truthy _); simpl; [|done].
  destruct (get_person_id_by_name host _) as [pid|e]; simpl; [|done].
  destruct (truthy pid); simpl; [|done].
  destruct (get_person_value host pid USER_ID_FIELD) as [uid|e]; simpl; [|done].
  by destruct (truthy uid).
Qed.

Lemma execute_path (debug : bool) (a : PokeAction.t) (u g : pyval) :
  resolved host a = Returns (u, g) ->
  path host debug a u g (execute_with host debug (init_state a)).
Proof.
  intros Hres.
  destruct (truthy u) eqn:Hu.
  - destruct (cooldown_blocks host a u g) eqn:Hb.
    + rewrite (execute_blocked host debug a u g) by done. by apply path_blocked.
    + destruct (send_command host SEND_POKE u (display_message a u)) as [[]|e] eqn:Hs.
      * rewrite (execute_dispatch_ok host debug a u g) by done. by apply path_success.
      * rewrite (execute_dispatch_failed host debug a u g e) by done.
        by apply path_failed.
  - rewrite (execute_no_target host debug a u g) by done. by apply path_no_target.
Qed.
End Paths.

(** ** The claims about [execute] *)

Section ExecuteClaims.
Context {U : UnicodeDB}.
Context {F : FloatArith}.

Local Arguments truthy : simpl never.

Lemma params_log_quiet (debug : bool) (u g : pyval) :
  sent_commands (params_log debug u g) = []
  /\ stored_actions (params_log debug u g) = []
  /\ sent_texts (params_log debug u g) = [].
Proof. by destruct debug. Qed.

Lemma quiet_prefix (host : Host) (debug : bool) (a : PokeAction.t) (u g : pyval) :
  sent_commands (resolution_trace host a ++ params_log debug u g) = []
  /\ stored_actions (resolution_trace host a ++ params_log debug u g) = []
  /\ sent_texts (resolution_trace host a ++ params_log debug u g) = [].
Proof.
  rewrite sent_commands_app, stored_actions_app, sent_texts_app.
  destruct (resolution_trace_quiet host a) as (-> & -> & ->).
  destruct (params_log_quiet debug u g) as (-> & -> & ->). done.
Qed.

Local Transparent MSG_FAILED MSG_NO_TARGET MSG_DUPLICATE.

Lemma failed_is_not_early (x : str) :
  MSG_FAILED ++ x <> MSG_NO_TARGET /\ MSG_FAILED ++ x <> MSG_DUPLICATE.
Proof.
  split; intros H; simpl in H; discriminate.
Qed.

(** What a finished run says about the commands sent and the records
    stored. *)
Lemma path_commands (host : Host) debug a u g r :
  path host debug a u g r ->
  (sent_commands (trace (snd r)) = []
   /\ stored_actions (trace (snd r)) = []
   /\ self (snd r) = a
   /\ (fst r = Returns (false, MSG_NO_TARGET) \/ fst r = Returns (false, MSG_DUPLICATE))
   /\ (truthy u = false \/ cooldown_blocks host a u g = true))
  \/ (sent_commands (trace (snd r)) = [(SEND_POKE, u, display_message a u)]
      /\ self (snd r) = after_dispatch host a u g
      /\ truthy u = true
      /\ cooldown_blocks host a u g = false
      /\ clock_reads (snd r) = S (if same_target a u g then 1 else 0)%nat
      /\ fst r <> Returns (false, MSG_NO_TARGET)
      /\ fst r <> Returns (false, MSG_DUPLICATE)).
Proof.
  intros [Hu|Hu Hb|Hu Hb Hs|e Hu Hb Hs]; cbn [fst snd trace self clock_reads].
  - left. destruct (quiet_prefix host debug a u g) as (-> & -> & _). auto 10.
  - left. destruct (quiet_prefix host debug a u g) as (-> & -> & _). auto 10.
  - right. rewrite app_assoc, sent_commands_app.
    destruct (quiet_prefix host debug a u g) as (-> & _ & _). simpl.
    repeat split; try done.
  - right. rewrite !sent_commands_app.
    destruct (resolution_trace_quiet host a) as (-> & _ & _).
    destruct (params_log_quiet debug u g) as (-> & _ & _).
    destruct (failed_is_not_early (exc_str e)) as [H1 H2].
    repeat split; try done; try (by destruct debug).
Qed.

(** [execute] raises nothing, whatever the collaborators do. *)
Lemma execute_never_raises (host : Host) (debug : bool) (a : PokeAction.t) :
  exists r, fst (execute_with host debug (init_state a)) = Returns r.
Proof.
  destruct (resolved_total host a) as (u & g & Hres & _).
  destruct (execute_path host debug a u g Hres); simpl; eauto.
Qed.

(** C6. When no step yields a user id, the resolution returns nothing
    for the user and for the group, whatever group id lines 90-101 had
    found, and [execute] fails with the no-target message without sending
    a command. *)
Theorem unresolved_user_fails (host : Host) (debug : bool) (a : PokeAction.t) :
  lookup_fails host a = true ->
  re_search USER_ID_PATTERN (PokeAction.llm_response_text a) = None ->
  resolved host a = Returns (None, None)
  /\ fst (execute_with host debug (init_state a)) = Returns (false, MSG_NO_TARGET)
  /\ sent_commands (trace (snd (execute_with host debug (init_state a)))) = [].
Proof.
  intros Hfail Hscan.
  assert (Hres : resolved host a = Returns (None, None)).
  { rewrite (resolved_scan host a Hfail). unfold scan_llm_response. by rewrite Hscan. }
  split; [done|].
  rewrite (execute_no_target host debug a None None Hres eq_refl). simpl.
  split; [done|]. by destruct (quiet_prefix host debug a None None) as (-> & _).
Qed.

(** C10. A run that ends with the no-target or with the duplicate-target
    result leaves the instance, hence its three cooldown fields, as it
    was, sends no command and stores no action record. *)
Theorem early_return_leaves_state (host : Host) (debug : bool) (a : PokeAction.t) :
  let run := execute_with host debug (init_state a) in
  fst run = Returns (false, MSG_NO_TARGET)
  \/ fst run = Returns (false, MSG_DUPLICATE) ->
  self (snd run) = a
  /\ PokeAction.last_poke_user (self (snd run)) = PokeAction.last_poke_user a
  /\ PokeAction.last_poke_group (self (snd run)) = PokeAction.last_poke_group a
  /\ PokeAction._last_poke_time (self (snd run)) = PokeAction._last_poke_time a
  /\ sent_commands (trace (snd run)) = []
  /\ stored_actions (trace (snd run)) = [].
Proof.
  intros run Hearly. subst run.
  destruct (resolved_total host a) as (u & g & Hres & _).
  destruct (path_commands host debug a u g _ (execute_path host debug a u g Hres))
    as [(Hc & Hs & Hself & _ & _)|(_ & _ & _ & _ & _ & Hn1 & Hn2)].
  - rewrite Hself. repeat split; done.
  - destruct Hearly; contradiction.
Qed.

(** C2. A run that sends the poke command, whether the transport
    accepts it or raises, ends with [last_poke_user] equal to the
    resolved user id, [_last_poke_time] equal to the last reading of the
    clock, and [last_poke_group] equal to the resolved group id when the
    poke went to a group and to [None] when it went directly. *)
Theorem dispatch_updates_cooldown (host : Host) (debug : bool) (a : PokeAction.t) :
  let run := execute_with host debug (init_state a) in
  sent_commands (trace (snd run)) <> [] ->
  exists u g,
    resolved host a = Returns (u, g)
    /\ PokeAction.last_poke_user (self (snd run)) = u
    /\ PokeAction._last_poke_time (self (snd run))
       = time_time host (clock_reads (snd run) - 1)
    /\ (truthy g = true -> PokeAction.last_poke_group (self (snd run)) = g)
    /\ (truthy g = false -> PokeAction.last_poke_group (self (snd run)) = None).
Proof.
  intros run Hsent. subst run.
  destruct (resolved_total host a) as (u & g & Hres & _).
  exists u, g. split; [done|].
  destruct (path_commands host debug a u g _ (execute_path host debug a u g Hres))
    as [(Hc & _)|(_ & Hself & _ & _ & Hclock & _)]; [contradiction|].
  rewrite Hself, Hclock. unfold after_dispatch, update_time. simpl.
  rewrite Nat.sub_0_r. repeat split; try done; by intros ->.
Qed.


(** C8. At the dispatch stage a non-empty group id selects
    [_send_group_poke] and anything else [_send_friend_poke]; an
    exception raised by the transport is turned into the pair of [False]
    and [str(e)] by either of them, so that [execute] raises nothing: it
    sends the failure text to the conversation when the debug flag is on
    and returns the failure with that text. *)
Theorem dispatch_failure_is_contained (host : Host) (debug : bool)
    (a : PokeAction.t) (u g : pyval) :
  let reply_id := dict_get (PokeAction.action_data a) "reply_id" in
  let send := if truthy g then _send_group_poke host g reply_id u
              else _send_friend_poke host u in
  let run := execute_with host debug (init_state a) in
  resolved host a = Returns (u, g) ->
  truthy u = true ->
  cooldown_blocks host a u g = false ->
  (exists tail,
      trace (snd run)
      = resolution_trace host a ++ params_log debug u g
          ++ trace (snd (send (init_state a))) ++ tail)
  /\ sent_commands (trace (snd run)) = [(SEND_POKE, u, display_message a u)]
  /\ (exists r, fst run = Returns r)
  /\ (forall e,
         send_command host SEND_POKE u (display_message a u) = Raises e ->
         fst (send (init_state a)) = Returns (false, PokeError (exc_str e))
         /\ fst run = Returns (false, MSG_FAILED ++ exc_str e)
         /\ sent_texts (trace (snd run))
            = (if debug then [MSG_FAILED ++ exc_str e] else [])
         /\ logged_errors (trace (snd (send (init_state a))))
            = [(if truthy g then LOG_GROUP_FAILED else LOG_FRIEND_FAILED)
                 ++ exc_str e]).
Proof.
  intros reply_id send run Hres Hu Hb. subst send run reply_id.
  split; [|split; [|split; [apply execute_never_raises|]]].
  - destruct (send_command host SEND_POKE u (display_message a u)) as [[]|e] eqn:Hs.
    + rewrite (execute_dispatch_ok host debug a u g) by done. simpl.
      exists [StoreActionInfo (log_record a)].
      destruct (truthy g);
        unfold _send_group_poke, _send_friend_poke, try_except, bind, get_self,
          self_send_command, call, ret; simpl;
        fold (display_message a u); by rewrite Hs.
    + rewrite (execute_dispatch_failed host debug a u g e) by done. simpl.
      exists (if debug then [SendText (MSG_FAILED ++ exc_str e)] else []).
      unfold failure_log.
      destruct (truthy g);
        unfold _send_group_poke, _send_friend_poke, try_except, bind, get_self,
          self_send_command, logger_error, call, ret; simpl;
        fold (display_message a u); by rewrite Hs.
  - destruct (path_commands host debug a u g _ (execute_path host debug a u g Hres))
      as [(_ & _ & _ & _ & [Hf|Hf])|(Hc & _)]; [congruence|congruence|done].
  - intros e Hs.
    rewrite (execute_dispatch_failed host debug a u g e) by done. simpl.
    rewrite !sent_texts_app.
    destruct (resolution_trace_quiet host a) as (_ & _ & ->).
    destruct (params_log_quiet debug u g) as (_ & _ & ->).
    destruct (truthy g);
      unfold _send_group_poke, _send_friend_poke, try_except, bind, get_self,
        self_send_command, logger_error, call, ret; simpl;
      fold (display_message a u); rewrite Hs; simpl; by destruct debug.
Qed.

(** C9. When the transport accepts the command, exactly one action
    record is stored: its name is [poke], it is marked done and to be
    built into the prompt, and its reason is the [reason] entry of
    [action_data] when there is one, else the instance's [reasoning] when
    that is non-empty, else the marker [无]. When the transport raises,
    no action record is stored. *)
Theorem action_log_written_once_on_success (host : Host) (debug : bool)
    (a : PokeAction.t) (u g : pyval) :
  let run := execute_with host debug (init_state a) in
  resolved host a = Returns (u, g) ->
  truthy u = true ->
  cooldown_blocks host a u g = false ->
  (send_command host SEND_POKE u (display_message a u) = Returns tt ->
   exists r reason,
     stored_actions (trace (snd run)) = [r]
     /\ fst run = Returns (true, MSG_SUCCESS)
     /\ ActionInfo.action_name r = ACTION_NAME
     /\ ActionInfo.action_done r = true
     /\ ActionInfo.action_build_into_prompt r = true
     /\ ActionInfo.action_data r = {[ "reason" := reason ]}
     /\ ActionInfo.action_prompt_display r = PROMPT_DISPLAY ++ py_str reason
     /\ reason
        = match PokeAction.action_data a !! "reason" with
          | Some v => v
          | None =>
            if truthy (PokeAction.reasoning a) then PokeAction.reasoning a
            else Some NO_REASON
          end)
  /\ (forall e,
         send_command host SEND_POKE u (display_message a u) = Raises e ->
         stored_actions (trace (snd run)) = []).
Proof.
  intros run Hres Hu Hb. subst run. split.
  - intros Hs. rewrite (execute_dispatch_ok host debug a u g) by done. simpl.
    exists (log_record a), (reason_of a).
    rewrite !stored_actions_app.
    destruct (resolution_trace_quiet host a) as (_ & -> & _).
    destruct (params_log_quiet debug u g) as (_ & -> & _).
    repeat split; try done.
  - intros e Hs. rewrite (execute_dispatch_failed host debug a u g e) by done. simpl.
    rewrite !stored_actions_app.
    destruct (resolution_trace_quiet host a) as (_ & -> & _).
    destruct (params_log_quiet debug u g) as (_ & -> & _).
    by destruct debug.
Qed.
End ExecuteClaims.

(** ** The group id before the user lookup *)

Section GroupChain.
Local Arguments truthy : simpl never.

Local Transparent NONE_TEXT.

Lemma normalize_group_falsy (v : pyval) : truthy v = false -> normalize_group v = v.
Proof.
  unfold normalize_group, pyval_eqb. intros Hv.
  destruct (bool_decide_reflect (v = Some NONE_TEXT)) as [->|]; [discriminate|done].
Qed.

Ltac chain :=
  repeat match goal with
         | H : truthy _ = _ |- _ => rewrite H; simpl
         | H : PokeAction.group_id _ = _ |- _ => rewrite H; simpl
         end;
  try done.

(** C7, as the code has it. The group id of lines 90-101 is the first
    non-empty value among the explicit [group_id] of [action_data], the
    group id of the message metadata and the group id of the chat
    stream, else the instance attribute [group_id] when the instance has
    one; the selected value is replaced by [None] when it is the text
    [None]. An explicit [None] text is non-empty: it is selected, and
    the group id is [None] whatever the ambient context holds. *)
Theorem group_priority_chain (a : PokeAction.t) :
  (truthy (group_reference a) = true ->
   ambient_group_id a = normalize_group (group_reference a))
  /\ (truthy (group_reference a) = false ->
      forall m, metadata_group a = Some m -> truthy m = true ->
                ambient_group_id a = normalize_group m)
  /\ (truthy (group_reference a) = false ->
      (forall m, metadata_group a = Some m -> truthy m = false) ->
      truthy (ChatStream.group_id (PokeAction.chat_stream a)) = true ->
      ambient_group_id a
      = normalize_group (ChatStream.group_id (PokeAction.chat_stream a)))
  /\ (truthy (group_reference a) = false ->
      (forall m, metadata_group a = Some m -> truthy m = false) ->
      truthy (ChatStream.group_id (PokeAction.chat_stream a)) = false ->
      forall g, PokeAction.group_id a = Some g ->
                ambient_group_id a = normalize_group g)
  /\ (truthy (group_reference a) = false ->
      (forall m, metadata_group a = Some m -> truthy m = false) ->
      truthy (ChatStream.group_id (PokeAction.chat_stream a)) = false ->
      PokeAction.group_id a = None ->
      truthy (ambient_group_id a) = false)
  /\ (group_reference a = Some NONE_TEXT -> ambient_group_id a = None).
Proof.
  unfold ambient_group_id, group_reference, metadata_group. cbv zeta.
  set (ex := dict_get (PokeAction.action_data a) "group_id").
  set (cs := ChatStream.group_id (PokeAction.chat_stream a)).
  repeat split.
  - intros He. chain.
  - intros He m Hm Htm.
    destruct (PokeAction.message a) as [msg|]; [|discriminate].
    destruct (Message.message_info msg) as [info|]; [|discriminate].
    injection Hm as ->. chain.
  - intros He Hm Hcs.
    destruct (PokeAction.message a) as [msg|];
      [destruct (Message.message_info msg) as [info|];
       [pose proof (Hm _ eq_refl)|]|]; chain.
  - intros He Hm Hcs g Hg.
    destruct (PokeAction.message a) as [msg|];
      [destruct (Message.message_info msg) as [info|];
       [pose proof (Hm _ eq_refl)|]|]; chain.
  - intros He Hm Hcs Hg.
    destruct (PokeAction.message a) as [msg|];
      [destruct (Message.message_info msg) as [info|];
       [pose proof (Hm _ eq_refl)|]|]; chain.
    + fold (normalize_group (MessageInfo.group_id info)).
      by rewrite normalize_group_falsy.
    + fold (normalize_group ex). by rewrite normalize_group_falsy.
    + fold (normalize_group ex). by rewrite normalize_group_falsy.
  - intros ->. reflexivity.
Qed.
End GroupChain.

(** ** The claims on concrete invocations *)

Lemma numeric_reference_short_circuits_witness :
  PokeAction.action_data numeric_action !! "user_id" = Some (Some (py "10001"))
  /\ py "10001" <> []
  /\ Forall (fun c => uc_isdigit c = true) (py "10001")
  /\ resolved failing_host numeric_action
     = Returns (Some (py "10001"), ambient_group_id numeric_action)
  /\ resolver_calls (resolution_trace failing_host numeric_action) = [].
Proof.
  assert (H1 : PokeAction.action_data numeric_action !! "user_id"
               = Some (Some (py "10001"))) by (vm_compute; reflexivity).
  assert (H2 : py "10001" <> []) by discriminate.
  assert (H3 : Forall (fun c => uc_isdigit c = true) (py "10001"))
    by (repeat constructor).
  destruct (numeric_reference_short_circuits failing_host numeric_action
              (py "10001") H1 H2 H3) as (R1 & R2 & _).
  exact (conj H1 (conj H2 (conj H3 (conj R1 R2)))).
Defined.


Lemma scan_fields_from_text_witness :
  lookup_fails failing_host text_action = true
  /\ PokeAction.llm_response_text text_action
     = [] ++ FIELD_GROUP ++ [32] ++ FIELD_USER ++ []
  /\ resolved failing_host text_action = Returns (Some ID_456, Some ID_123).
Proof.
  assert (H1 : lookup_fails failing_host text_action = true)
    by (vm_compute; reflexivity).
  assert (H2 : PokeAction.llm_response_text text_action
               = [] ++ FIELD_GROUP ++ [32] ++ FIELD_USER ++ [])
    by (vm_compute; reflexivity).
  assert (H3 : (58 : N) ∉ ([] : str)) by apply not_elem_of_nil.
  assert (H4 : (58 : N) ∉ ([32] : str)).
  { intros H. apply list_elem_of_singleton in H. discriminate. }
  assert (H5 : no_digit_ahead [32]) by (vm_compute; reflexivity).
  destruct (scan_fields_from_text failing_host text_action H1) as [Hfields _].
  pose proof (Hfields [] [32] [] H3 H4 H5 I (or_introl H2)) as R.
  exact (conj H1 (conj H2 R)).
Defined.

Lemma unresolved_user_fails_witness :
  lookup_fails failing_host lost_action = true
  /\ re_search USER_ID_PATTERN (PokeAction.llm_response_text lost_action) = None
  /\ ambient_group_id lost_action = Some (py "777")
  /\ resolved failing_host lost_action = Returns (None, None)
  /\ fst (execute failing_host (init_state lost_action))
     = Returns (false, MSG_NO_TARGET).
Proof.
  assert (H1 : lookup_fails failing_host lost_action = true)
    by (vm_compute; reflexivity).
  assert (H2 : re_search USER_ID_PATTERN (PokeAction.llm_response_text lost_action)
               = None) by (vm_compute; reflexivity).
  assert (H3 : ambient_group_id lost_action = Some (py "777"))
    by (vm_compute; reflexivity).
  destruct (unresolved_user_fails failing_host POKE_DEBUG lost_action H1 H2)
    as (R1 & R2 & _).
  exact (conj H1 (conj H2 (conj H3 (conj R1 R2)))).
Defined.

(** C7, as the claim has it, fails: with the explicit reference [None]
    the group id is [None], although without any reference the same
    invocation takes group 777 from the message metadata. *)
Lemma none_literal_is_not_absence :
  group_reference none_action = Some NONE_TEXT
  /\ group_reference (without_group_reference none_action) = None
  /\ ambient_group_id none_action
     <> ambient_group_id (without_group_reference none_action)
  /\ ambient_group_id none_action = None
  /\ ambient_group_id (without_group_reference none_action) = Some (py "777")
  /\ resolved (accepting_host 1000) none_action = Returns (Some (py "10001"), None)
  /\ resolved (accepting_host 1000) (without_group_reference none_action)
     = Returns (Some (py "10001"), Some (py "777")).
Proof.
  repeat split; try (vm_compute; reflexivity).
  vm_compute. discriminate.
Qed.

Lemma group_priority_chain_witness :
  truthy (group_reference numeric_action) = true
  /\ ambient_group_id numeric_action = normalize_group (group_reference numeric_action)
  /\ truthy (group_reference metadata_action) = false
  /\ metadata_group metadata_action = Some (Some (py "777"))
  /\ ambient_group_id metadata_action = normalize_group (Some (py "777"))
  /\ PokeAction.group_id attribute_action = Some (Some (py "888"))
  /\ ambient_group_id attribute_action = normalize_group (Some (py "888"))
  /\ group_reference none_action = Some NONE_TEXT
  /\ ambient_group_id none_action = None.
Proof.
  assert (H1 : truthy (group_reference numeric_action) = true) by reflexivity.
  assert (H2 : truthy (group_reference metadata_action) = false) by reflexivity.
  assert (H3 : metadata_group metadata_action = Some (Some (py "777")))
    by reflexivity.
  assert (H4 : PokeAction.group_id attribute_action = Some (Some (py "888")))
    by reflexivity.
  assert (H5 : group_reference none_action = Some NONE_TEXT)
    by (vm_compute; reflexivity).
  destruct (group_priority_chain numeric_action) as (R1 & _).
  destruct (group_priority_chain metadata_action) as (_ & R2 & _).
  destruct (group_priority_chain attribute_action) as (_ & _ & _ & R4 & _).
  destruct (group_priority_chain none_action) as (_ & _ & _ & _ & _ & R6).
  assert (H6 : truthy (group_reference attribute_action) = false) by reflexivity.
  assert (H7 : forall m, metadata_group attribute_action = Some m -> truthy m = false)
    by (intros m Hm; discriminate Hm).
  assert (H8 : truthy (ChatStream.group_id (PokeAction.chat_stream attribute_action))
               = false) by reflexivity.
  exact (conj H1 (conj (R1 H1) (conj H2 (conj H3 (conj (R2 H2 _ H3 eq_refl)
          (conj H4 (conj (R4 H6 H7 H8 _ H4) (conj H5 (R6 H5))))))))).
Defined.



Lemma dispatch_updates_cooldown_witness :
  sent_commands (trace (snd (execute failing_host (init_state numeric_action)))) <> []
  /\ exists u g,
      resolved failing_host numeric_action = Returns (u, g)
      /\ PokeAction.last_poke_user
           (self (snd (execute failing_host (init_state numeric_action)))) = u
      /\ PokeAction._last_poke_time
           (self (snd (execute failing_host (init_state numeric_action))))
         = time_time failing_host
             (clock_reads (snd (execute failing_host (init_state numeric_action))) - 1)
      /\ (truthy g = true ->
          PokeAction.last_poke_group
            (self (snd (execute failing_host (init_state numeric_action)))) = g)
      /\ (truthy g = false ->
          PokeAction.last_poke_group
            (self (snd (execute failing_host (init_state numeric_action)))) = None).
Proof.
  assert (H1 : sent_commands (trace (snd (execute failing_host
                                            (init_state numeric_action)))) <> [])
    by (vm_compute; discriminate).
  exact (conj H1 (dispatch_updates_cooldown failing_host POKE_DEBUG numeric_action H1)).
Defined.

Lemma dispatch_failure_is_contained_witness :
  resolved failing_host numeric_action = Returns (Some (py "10001"), Some (py "777"))
  /\ cooldown_blocks failing_host numeric_action (Some (py "10001")) (Some (py "777"))
     = false
  /\ fst (execute failing_host (init_state numeric_action))
     = Returns (false, MSG_FAILED ++ py "timeout")
  /\ sent_texts (trace (snd (execute failing_host (init_state numeric_action))))
     = [MSG_FAILED ++ py "timeout"].
Proof.
  assert (H1 : resolved failing_host numeric_action
               = Returns (Some (py "10001"), Some (py "777")))
    by (vm_compute; reflexivity).
  assert (H2 : cooldown_blocks failing_host numeric_action
                 (Some (py "10001")) (Some (py "777")) = false)
    by (vm_compute; reflexivity).
  destruct (dispatch_failure_is_contained failing_host POKE_DEBUG numeric_action
              _ _ H1 eq_refl H2) as (_ & _ & _ & Hfail).
  destruct (Hfail (Exception (py "timeout")) eq_refl) as (_ & R1 & R2 & _).
  exact (conj H1 (conj H2 (conj R1 R2))).
Defined.

Lemma action_log_written_once_on_success_witness :
  resolved (accepting_host 1000) numeric_action
  = Returns (Some (py "10001"), Some (py "777"))
  /\ cooldown_blocks (accepting_host 1000) numeric_action
       (Some (py "10001")) (Some (py "777")) = false
  /\ (exists r, stored_actions
                  (trace (snd (execute (accepting_host 1000)
                                 (init_state numeric_action)))) = [r]
                /\ ActionInfo.action_name r = ACTION_NAME
                /\ ActionInfo.action_done r = true)
  /\ stored_actions (trace (snd (execute failing_host (init_state numeric_action))))
     = [].
Proof.
  assert (H1 : resolved (accepting_host 1000) numeric_action
               = Returns (Some (py "10001"), Some (py "777")))
    by (vm_compute; reflexivity).
  assert (H2 : cooldown_blocks (accepting_host 1000) numeric_action
                 (Some (py "10001")) (Some (py "777")) = false)
    by (vm_compute; reflexivity).
  assert (H3 : resolved failing_host numeric_action
               = Returns (Some (py "10001"), Some (py "777")))
    by (vm_compute; reflexivity).
  assert (H4 : cooldown_blocks failing_host numeric_action
                 (Some (py "10001")) (Some (py "777")) = false)
    by (vm_compute; reflexivity).
  destruct (action_log_written_once_on_success (accepting_host 1000) POKE_DEBUG
              numeric_action _ _ H1 eq_refl H2) as [Hok _].
  destruct (action_log_written_once_on_success failing_host POKE_DEBUG
              numeric_action _ _ H3 eq_refl H4) as [_ Hfail].
  destruct (Hok eq_refl) as (r & reason & R1 & _ & R2 & R3 & _).
  exact (conj H1 (conj H2 (conj (ex_intro _ r (conj R1 (conj R2 R3)))
          (Hfail (Exception (py "timeout")) eq_refl)))).
Defined.

Lemma early_return_leaves_state_witness :
  fst (execute (accepting_host 1100) (init_state poked_action))
  = Returns (false, MSG_DUPLICATE)
  /\ self (snd (execute (accepting_host 1100) (init_state poked_action)))
     = poked_action
  /\ sent_commands (trace (snd (execute (accepting_host 1100)
                                  (init_state poked_action)))) = []
  /\ stored_actions (trace (snd (execute (accepting_host 1100)
                                   (init_state poked_action)))) = [].
Proof.
  assert (H1 : fst (execute (accepting_host 1100) (init_state poked_action))
               = Returns (false, MSG_DUPLICATE)) by (vm_compute; reflexivity).
  destruct (early_return_leaves_state (accepting_host 1100) POKE_DEBUG poked_action
              (or_intror H1)) as (R1 & _ & _ & _ & R2 & R3).
  exact (conj H1 (conj R1 (conj R2 R3))).
Defined.

(** * Further properties of the code *)

(** ** The pattern search *)

Section SearchFacts.
Context {U : UnicodeDB}.
Context {F : FloatArith}.

Lemma take_decimals_split (s : str) :
  exists post, s = take_decimals s ++ post
               /\ Forall (fun c => uc_decimal c = true) (take_decimals s)
               /\ no_digit_ahead post.
Proof.
  induction s as [|c t (post & Heq & Hall & Hpost)]; simpl.
  - by exists [].
  - destruct (uc_decimal c) eqn:Hc.
    + exists post. simpl. split; [by rewrite <- Heq|]. split; [by constructor|done].
    + exists (c :: t). simpl. done.
Qed.

Lemma match_digits_split (s d : str) :
  match_digits s = Some d ->
  exists post, s = d ++ post
               /\ d <> []
               /\ Forall (fun c => uc_decimal c = true) d
               /\ no_digit_ahead post.
Proof.
  unfold match_digits. intros H.
  destruct (take_decimals_split s) as (post & Heq & Hall & Hpost).
  destruct (take_decimals s) as [|c r] eqn:E; [discriminate|].
  injection H as <-. exists post. done.
Qed.

Lemma match_ws_digits_split (s d : str) :
  match_ws_digits s = Some d ->
  exists ws post, s = ws ++ d ++ post
                  /\ Forall (fun c => uc_space c = true) ws
                  /\ d <> []
                  /\ Forall (fun c => uc_decimal c = true) d
                  /\ no_digit_ahead post.
Proof.
  revert d. induction s as [|c t IH]; intros d; simpl; [discriminate|].
  assert (Hhere : match_digits (c :: t) = Some d ->
                  exists ws post, c :: t = ws ++ d ++ post
                                  /\ Forall (fun c => uc_space c = true) ws
                                  /\ d <> []
                                  /\ Forall (fun c => uc_decimal c = true) d
                                  /\ no_digit_ahead post).
  { intros H. apply match_digits_split in H as (post & Heq & Hd). by exists [], post. }
  destruct (uc_space c) eqn:Hc; [|done].
  destruct (match_ws_digits t) as [d'|] eqn:E; [|done].
  intros [= <-]. destruct (IH d' eq_refl) as (ws & post & -> & Hws & Hd).
  exists (c :: ws), post. split; [done|]. split; [by constructor|done].
Qed.

Lemma match_at_split (lit s d : str) :
  match_at lit s = Some d ->
  exists ws post, s = lit ++ ws ++ d ++ post
                  /\ Forall (fun c => uc_space c = true) ws
                  /\ d <> []
                  /\ Forall (fun c => uc_decimal c = true) d
                  /\ no_digit_ahead post.
Proof.
  unfold match_at. destruct (starts_with lit s) eqn:Hs; [|discriminate].
  apply starts_with_spec in Hs as [r ->]. rewrite drop_app_length.
  intros H. apply match_ws_digits_split in H as (ws & post & -> & Hd).
  by exists ws, post.
Qed.

(** A found id is made of decimal digits and follows an occurrence of the
    literal. *)
Lemma re_search_occurs (lit s d : str) :
  re_search lit s = Some d ->
  (exists pre rest, s = pre ++ lit ++ rest)
  /\ Forall (fun c => uc_decimal c = true) d.
Proof.
  assert (Hat : forall x, match_at lit x = Some d ->
            (exists pre rest, x = pre ++ lit ++ rest)
            /\ Forall (fun c => uc_decimal c = true) d).
  { intros x Hx. apply match_at_split in Hx as (ws & post & -> & _ & _ & Hd & _).
    split; [by exists [], (ws ++ d ++ post)|done]. }
  induction s as [|c t IH]; simpl.
  - destruct (match_at lit []) as [d'|] eqn:E; [|discriminate].
    intros [= <-]. by apply Hat.
  - destruct (match_at lit (c :: t)) as [d'|] eqn:E.
    + intros [= <-]. by apply Hat.
    + intros H. destruct (IH H) as [(pre & rest & ->) Hd].
      split; [by exists (c :: pre), rest|done].
Qed.

(** X1. What [re.search] returns is written in the text: the match is the
    literal, a run of whitespace and the captured digits; the capture is
    a non-empty run of decimal digits that the text does not continue
    with another digit, and no match starts further to the left. *)
Theorem re_search_sound (lit s d : str) :
  re_search lit s = Some d ->
  exists pre ws post,
    s = pre ++ lit ++ ws ++ d ++ post
    /\ Forall (fun c => uc_space c = true) ws
    /\ d <> []
    /\ Forall (fun c => uc_decimal c = true) d
    /\ no_digit_ahead post
    /\ no_start lit pre (lit ++ ws ++ d ++ post).
Proof.
  induction s as [|c t IH].
  - simpl. destruct (match_at lit []) as [d'|] eqn:E; [|discriminate].
    intros [= <-].
    apply match_at_split in E as (ws & post & Heq & Hws & Hne & Hd & Hp).
    exists [], ws, post. repeat split; done.
  - simpl. destruct (match_at lit (c :: t)) as [d'|] eqn:E.
    + intros [= <-].
      apply match_at_split in E as (ws & post & Heq & Hws & Hne & Hd & Hp).
      exists [], ws, post. repeat split; done.
    + intros H. destruct (IH H) as (pre & ws & post & -> & Hws & Hne & Hd & Hp & Hn).
      exists (c :: pre), ws, post. repeat split; try done.
Qed.

Lemma match_ws_digits_complete (ws : str) (c : N) (post : str) :
  Forall (fun c => uc_space c = true) ws ->
  uc_decimal c = true ->
  exists d, match_ws_digits (ws ++ c :: post) = Some d.
Proof.
  intros Hws Hc. induction Hws as [|w ws Hw Hws IH]; simpl.
  - unfold match_digits. simpl. rewrite Hc.
    destruct (uc_space c); [destruct (match_ws_digits post)|]; eauto.
  - rewrite Hw. destruct IH as [d ->]. eauto.
Qed.

Lemma re_search_app_found (lit pre s d : str) :
  match_at lit s = Some d -> exists d', re_search lit (pre ++ s) = Some d'.
Proof.
  intros H. induction pre as [|c pre [d' IH]]; simpl.
  - exists d. by apply re_search_here.
  - destruct (match_at lit (c :: pre ++ s)); eauto.
Qed.

(** X2. The search misses nothing: when the literal, any run of
    whitespace and a decimal digit stand anywhere in the text, the search
    returns an id. *)
Theorem re_search_complete (lit pre ws post : str) (c : N) :
  Forall (fun c => uc_space c = true) ws ->
  uc_decimal c = true ->
  exists d, re_search lit (pre ++ lit ++ ws ++ c :: post) = Some d /\ d <> [].
Proof.
  intros Hws Hc.
  destruct (match_ws_digits_complete ws c post Hws Hc) as [d Hd].
  assert (Hat : match_at lit (lit ++ ws ++ c :: post) = Some d).
  { unfold match_at.
    rewrite (proj2 (starts_with_spec lit _) (ex_intro _ _ eq_refl)).
    by rewrite drop_app_length. }
  destruct (re_search_app_found lit pre _ d Hat) as [d' Hd'].
  exists d'. split; [done|]. by apply re_search_nonempty in Hd'.
Qed.

(** A text without the last character of the literal holds no match. *)
Lemma re_search_absent_char (lit s : str) (x : N) :
  x ∈ lit -> x ∉ s -> re_search lit s = None.
Proof.
  intros Hlit Hs. destruct (re_search lit s) as [d|] eqn:E; [|done].
  apply re_search_occurs in E as [(pre & rest & ->) _].
  exfalso. apply Hs. apply elem_of_app. right. apply elem_of_app. by left.
Qed.
End SearchFacts.

(** ** The resolution as a whole *)

Section ResolutionFacts.
Context {U : UnicodeDB}.
Context {F : FloatArith}.
Variable host : Host.

Local Arguments truthy : simpl never.
Local Arguments isdigit : simpl never.

Ltac run_resolution :=
  unfold resolved, resolution_trace, get_user_and_group_id, bind, get_self,
    try_except, ret, person_api_get_person_id_by_name,
    person_api_get_person_value, logger_error, call, init_state; simpl.

Lemma ambient_group_id_not_none_text (a : PokeAction.t) :
  ambient_group_id a <> Some NONE_TEXT.
Proof.
  unfold ambient_group_id. cbv zeta.
  match goal with
  | |- (if pyval_eqb ?v _ then _ else _) <> _ =>
    destruct (pyval_eqb v (Some NONE_TEXT)) eqn:E; [discriminate|]
  end.
  intros H. apply pyval_eqb_eq in H. congruence.
Qed.

Local Transparent NONE_TEXT.

Lemma decimals_are_not_none_text (d : str) :
  Forall (fun c => uc_decimal c = true) d -> d <> NONE_TEXT.
Proof.
  intros Hd ->. inversion Hd as [|c r Hc _]; subst.
  rewrite uc_decimal_ascii in Hc by lia. discriminate.
Qed.

(** X3. The resolution is all or nothing and has no side effect on the
    instance: whatever the person API does, [get_user_and_group_id]
    returns without raising, leaves the instance and the clock alone,
    sends no command, stores no record and sends no text; the user id it
    returns is a non-empty string, or else both ids are [None]. *)
Theorem resolution_is_all_or_nothing (s : State) :
  exists u g,
    get_user_and_group_id host s
    = (Returns (u, g),
       {| self := self s; trace := trace s ++ resolution_trace host (self s);
          clock_reads := clock_reads s |})
    /\ (truthy u = true \/ (u = None /\ g = None))
    /\ sent_commands (resolution_trace host (self s)) = []
    /\ stored_actions (resolution_trace host (self s)) = []
    /\ sent_texts (resolution_trace host (self s)) = [].
Proof.
  destruct (resolved_total host (self s)) as (u & g & Hres & Hshape).
  exists u, g. rewrite get_user_and_group_id_frame, Hres.
  split; [done|]. split; [done|]. apply resolution_trace_quiet.
Qed.

(** X4. The person API is asked at most twice, in a fixed order: nothing
    is asked for a missing, empty or numeric reference; otherwise the
    name is looked up once, and the user id of the person is fetched only
    for a non-empty person id. An error is logged only when a call
    raised; a miss is silent. *)
Theorem person_api_call_discipline (a : PokeAction.t) :
  let ref := user_reference a in
  let tr := resolution_trace host a in
  (truthy ref = false \/ isdigit (py_str ref) = true -> tr = [])
  /\ (truthy ref = true -> isdigit (py_str ref) = false ->
      match get_person_id_by_name host ref with
      | Raises e =>
        tr = [GetPersonIdByName ref; LoggerError (LOG_PERSON_API ++ exc_str e)]
      | Returns pid =>
        if truthy pid then
          match get_person_value host pid USER_ID_FIELD with
          | Raises e =>
            tr = [GetPersonIdByName ref; GetPersonValue pid USER_ID_FIELD;
                  LoggerError (LOG_PERSON_API ++ exc_str e)]
          | Returns _ =>
            tr = [GetPersonIdByName ref; GetPersonValue pid USER_ID_FIELD]
          end
        else tr = [GetPersonIdByName ref]
      end).
Proof.
  intros ref tr. subst ref tr. unfold user_reference. run_resolution.
  set (ref := dict_get (PokeAction.action_data a) "user_id").
  split.
  - intros [Ht|Hd].
    + by rewrite Ht.
    + rewrite Hd. by destruct (truthy ref).
  - intros Ht Hd. rewrite Ht, Hd. simpl.
    destruct (get_person_id_by_name host ref) as [pid|e]; simpl; [|done].
    destruct (truthy pid); simpl; [|done].
    destruct (get_person_value host pid USER_ID_FIELD) as [uid|e]; simpl; [|done].
    by destruct (truthy uid).
Qed.

(** X5. Ids written in the LLM response text never override a numeric
    reference or an answer of the person API: when lines 103-116 find a
    user id, the returned pair and the calls made are the same for every
    response text. *)
Theorem text_is_ignored_after_lookup (a : PokeAction.t) (text : str) :
  lookup_fails host a = false ->
  resolved host (with_llm_response_text text a) = resolved host a
  /\ resolution_trace host (with_llm_response_text text a) = resolution_trace host a.
Proof.
  unfold lookup_fails, user_reference. run_resolution.
  change (ambient_group_id (with_llm_response_text text a))
    with (ambient_group_id a).
  set (ref := dict_get (PokeAction.action_data a) "user_id").
  destruct (truthy ref); simpl; [|discriminate].
  destruct (isdigit (py_str ref)); simpl; [done|].
  destruct (get_person_id_by_name host ref) as [pid|e]; simpl; [|discriminate].
  destruct (truthy pid); simpl; [|discriminate].
  destruct (get_person_value host pid USER_ID_FIELD) as [uid|e]; simpl;
    [|discriminate].
  by destruct (truthy uid).
Qed.

(** Where the returned group id comes from. *)
Lemma resolved_group_shape (a : PokeAction.t) (u g : pyval) :
  resolved host a = Returns (u, g) ->
  g = None
  \/ g = ambient_group_id a
  \/ exists d, g = Some d /\ Forall (fun c => uc_decimal c = true) d.
Proof.
  destruct (lookup_fails host a) eqn:Hl.
  - rewrite (resolved_scan host a Hl). unfold scan_llm_response.
    destruct (re_search USER_ID_PATTERN _) as [su|]; [|intros [= <- <-]; by left].
    destruct (re_search GROUP_ID_PATTERN _) as [sg|] eqn:Eg; intros [= <- <-].
    + apply re_search_occurs in Eg as [_ Hd]. right. right. by exists sg.
    + right. by left.
  - destruct (lookup_succeeds host a Hl) as (uid & _ & ->).
    intros [= <- <-]. right. by left.
Qed.

(** X6. The group id that the resolution returns is never the text
    [None], wherever it comes from: the explicit reference, the ambient
    context or the response text. *)
Theorem resolved_group_is_never_none_text (a : PokeAction.t) (u g : pyval) :
  resolved host a = Returns (u, g) -> g <> Some NONE_TEXT.
Proof.
  intros Hres.
  destruct (resolved_group_shape a u g Hres) as [->|[->|(d & -> & Hd)]].
  - discriminate.
  - apply ambient_group_id_not_none_text.
  - intros [= ->]. by apply decimals_are_not_none_text in Hd.
Qed.

Local Transparent USER_ID_PATTERN.

Lemma colon_in_user_pattern : 58 ∈ USER_ID_PATTERN.
Proof. simpl. repeat first [by left | right]. Qed.

(** X7. A response text without a colon holds no id: when lines 103-116
    find nothing and the text has no colon (the empty default text of
    [__init__] in particular), the resolution returns nothing. *)
Theorem colon_free_text_resolves_nothing (a : PokeAction.t) :
  lookup_fails host a = true ->
  58 ∉ PokeAction.llm_response_text a ->
  resolved host a = Returns (None, None).
Proof.
  intros Hl Hfree. rewrite (resolved_scan host a Hl). unfold scan_llm_response.
  rewrite (re_search_absent_char USER_ID_PATTERN _ 58); [done| |done].
  apply colon_in_user_pattern.
Qed.
End ResolutionFacts.

(** ** The gate and the effects of a run *)

Section ExecuteFacts.
Context {U : UnicodeDB}.
Context {F : FloatArith}.

Local Arguments truthy : simpl never.

Lemma same_target_false (a : PokeAction.t) (u g : pyval) :
  PokeAction.last_poke_user a <> u \/ PokeAction.last_poke_group a <> g ->
  same_target a u g = false.
Proof.
  unfold same_target. intros [H|H].
  - destruct (pyval_eqb (PokeAction.last_poke_user a) u) eqn:E; [|done].
    apply pyval_eqb_eq in E. contradiction.
  - destruct (pyval_eqb (PokeAction.last_poke_group a) g) eqn:E;
      [|by rewrite andb_false_r].
    apply pyval_eqb_eq in E. contradiction.
Qed.

Lemma dispatching_run (host : Host) (debug : bool) (a : PokeAction.t) (u g : pyval) :
  resolved host a = Returns (u, g) ->
  truthy u = true ->
  cooldown_blocks host a u g = false ->
  sent_commands (trace (snd (execute_with host debug (init_state a))))
  = [(SEND_POKE, u, display_message a u)]
  /\ self (snd (execute_with host debug (init_state a))) = after_dispatch host a u g
  /\ clock_reads (snd (execute_with host debug (init_state a)))
     = S (if same_target a u g then 1 else 0)%nat
  /\ fst (execute_with host debug (init_state a)) <> Returns (false, MSG_DUPLICATE).
Proof.
  intros Hres Hu Hb.
  destruct (path_commands host debug a u g _ (execute_path host debug a u g Hres))
    as [(_ & _ & _ & _ & [Hf|Hf])|(Hc & Hself & _ & _ & Hclock & _ & Hn)];
    [congruence|congruence|done].
Qed.

(** X8. The gate never rejects another target: when the resolved user or
    the resolved group differs from the stored one, the command is sent
    whatever the clock says, and the clock is read once only, after the
    dispatch. *)
Theorem other_target_is_not_blocked (host : Host) (debug : bool)
    (a : PokeAction.t) (u g : pyval) :
  let run := execute_with host debug (init_state a) in
  resolved host a = Returns (u, g) ->
  truthy u = true ->
  PokeAction.last_poke_user a <> u \/ PokeAction.last_poke_group a <> g ->
  sent_commands (trace (snd run)) = [(SEND_POKE, u, display_message a u)]
  /\ fst run <> Returns (false, MSG_DUPLICATE)
  /\ clock_reads (snd run) = 1%nat
  /\ PokeAction._last_poke_time (self (snd run)) = time_time host 0.
Proof.
  intros run Hres Hu Hdiff. subst run.
  pose proof (same_target_false a u g Hdiff) as Hsame.
  assert (Hb : cooldown_blocks host a u g = false)
    by (unfold cooldown_blocks; by rewrite Hsame).
  destruct (dispatching_run host debug a u g Hres Hu Hb) as (Hc & Hself & Hclock & Hn).
  rewrite Hc, Hself, Hclock, Hsame. unfold after_dispatch, update_time.
  rewrite Hsame. done.
Qed.

(** X9. A rejected attempt does not extend the window: after a run that
    was rejected as a duplicate, the same target passes the gate as soon
    as 300 seconds have gone by since the dispatch that armed it. *)
Theorem blocked_attempt_keeps_window (host2 host3 : Host) (debug : bool)
    (a : PokeAction.t) (u g : pyval) :
  let a' := self (snd (execute_with host2 debug (init_state a))) in
  resolved host2 a = Returns (u, g) ->
  truthy u = true ->
  cooldown_blocks host2 a u g = true ->
  resolved host3 a' = Returns (u, g) ->
  (COOLDOWN <= time_time host3 0 - PokeAction._last_poke_time a)%Q ->
  PokeAction._last_poke_time a' = PokeAction._last_poke_time a
  /\ sent_commands (trace (snd (execute_with host3 debug (init_state a'))))
     = [(SEND_POKE, u, display_message a' u)].
Proof.
  intros a' Hres Hu Hb Hres3 Hge. subst a'.
  rewrite (execute_blocked host2 debug a u g Hres Hu Hb) in *. simpl in *.
  split; [done|].
  assert (Hge' : (COOLDOWN
                  <= float_sub (time_time host3 0) (PokeAction._last_poke_time a))%Q).
  { apply (float_sub_ge _ _ 300); [|done]. vm_compute. discriminate. }
  apply Qltb_ge in Hge'.
  assert (Hb3 : cooldown_blocks host3 a u g = false).
  { unfold cooldown_blocks. by rewrite Hge', andb_false_r. }
  by destruct (dispatching_run host3 debug a u g Hres3 Hu Hb3) as (Hc & _).
Qed.

(** X10. An empty group id defeats the gate: a poke resolved to the empty
    string as group goes out as a direct poke and stores [None] as group,
    so a second invocation that resolves to the same user and the same
    empty group is sent again, however soon it comes. *)
Theorem empty_group_repeat_is_sent (host1 host2 : Host) (debug : bool)
    (a1 a2 : PokeAction.t) (u : pyval) :
  let run1 := execute_with host1 debug (init_state a1) in
  let run2 := execute_with host2 debug (init_state a2) in
  resolved host1 a1 = Returns (u, Some []) ->
  sent_commands (trace (snd run1)) <> [] ->
  PokeAction.last_poke_user a2 = PokeAction.last_poke_user (self (snd run1)) ->
  PokeAction.last_poke_group a2 = PokeAction.last_poke_group (self (snd run1)) ->
  resolved host2 a2 = Returns (u, Some []) ->
  PokeAction.last_poke_group (self (snd run1)) = None
  /\ sent_commands (trace (snd run2)) = [(SEND_POKE, u, display_message a2 u)]
  /\ fst run2 <> Returns (false, MSG_DUPLICATE).
Proof.
  intros run1 run2 Hres1 Hsent Hu2 Hg2 Hres2. subst run1 run2.
  destruct (path_commands host1 debug a1 u _ _ (execute_path host1 debug a1 u _ Hres1))
    as [(Hc & _)|(_ & Hself & Hu & _)]; [contradiction|].
  rewrite Hself in *. unfold after_dispatch in *. simpl in *.
  split; [done|].
  assert (Hb : cooldown_blocks host2 a2 u (Some []) = false).
  { unfold cooldown_blocks. rewrite same_target_false; [done|].
    right. rewrite Hg2. discriminate. }
  by destruct (dispatching_run host2 debug a2 u _ Hres2 Hu Hb) as (Hc & _ & _ & Hn).
Qed.

(** X11. One invocation sends at most one command. When it sends one, the
    command is [SEND_POKE] for the resolved, non-empty user id, and its
    display annotation names the [user_id] entry of [action_data] when
    the key is there, whatever its value, and the resolved id otherwise. *)
Theorem at_most_one_command (host : Host) (debug : bool) (a : PokeAction.t) :
  let run := execute_with host debug (init_state a) in
  sent_commands (trace (snd run)) = []
  \/ exists u g,
      resolved host a = Returns (u, g)
      /\ truthy u = true
      /\ sent_commands (trace (snd run))
         = [(SEND_POKE, u,
             DISPLAY_OPEN ++ py_str (target_user_name a u) ++ DISPLAY_CLOSE)].
Proof.
  intros run. subst run.
  destruct (resolved_total host a) as (u & g & Hres & _).
  destruct (path_commands host debug a u g _ (execute_path host debug a u g Hres))
    as [(Hc & _)|(Hc & _ & Hu & _)]; [by left|].
  right. exists u, g. rewrite Hc.
  unfold display_message, dict_get_default, target_user_name.
  by destruct (PokeAction.action_data a !! "user_id").
Qed.

(** X12. The result tells what was done. A result with the flag [True]
    carries the success message and comes with exactly one command and
    one stored record and no text; a result with the flag [False] comes
    with no stored record, and with a text to the conversation only
    when the debug flag is on and a command was sent, the text being the
    message of the result. *)
Theorem result_flag_matches_effects (host : Host) (debug : bool) (a : PokeAction.t) :
  let run := execute_with host debug (init_state a) in
  (forall msg,
      fst run = Returns (true, msg) ->
      msg = MSG_SUCCESS
      /\ length (sent_commands (trace (snd run))) = 1%nat
      /\ length (stored_actions (trace (snd run))) = 1%nat
      /\ sent_texts (trace (snd run)) = [])
  /\ (forall msg,
         fst run = Returns (false, msg) ->
         stored_actions (trace (snd run)) = []
         /\ (sent_texts (trace (snd run)) = []
             \/ (debug = true
                 /\ length (sent_commands (trace (snd run))) = 1%nat
                 /\ sent_texts (trace (snd run)) = [msg]))).
Proof.
  intros run. subst run.
  destruct (resolved_total host a) as (u & g & Hres & _).
  destruct (execute_path host debug a u g Hres) as [Hu|Hu Hb|Hu Hb Hs|e Hu Hb Hs];
    cbn [fst snd trace]; rewrite ?sent_commands_app, ?stored_actions_app,
      ?sent_texts_app;
    destruct (resolution_trace_quiet host a) as (-> & -> & ->);
    destruct (params_log_quiet debug u g) as (-> & -> & ->);
    (split; intros msg [= <-]).
  - split; [done|]. by left.
  - split; [done|]. by left.
  - done.
  - split; [by destruct debug|]. destruct debug; [right|left]; done.
Qed.
End ExecuteFacts.

(** ** What a run keeps *)

Section Invariants.
Context {U : UnicodeDB}.
Context {F : FloatArith}.

Local Arguments truthy : simpl never.

Lemma execute_self (host : Host) (debug : bool) (a : PokeAction.t) :
  exists u g,
    resolved host a = Returns (u, g)
    /\ (self (snd (execute_with host debug (init_state a))) = a
        \/ (truthy u = true
            /\ self (snd (execute_with host debug (init_state a)))
               = after_dispatch host a u g)).
Proof.
  destruct (resolved_total host a) as (u & g & Hres & _). exists u, g.
  split; [done|].
  destruct (path_commands host debug a u g _ (execute_path host debug a u g Hres))
    as [(_ & _ & Hself & _)|(_ & Hself & Hu & _)]; auto.
Qed.

Lemma execute_keeps_fields_ok (host : Host) (debug : bool) (a : PokeAction.t) :
  cooldown_fields_ok a ->
  cooldown_fields_ok (self (snd (execute_with host debug (init_state a)))).
Proof.
  intros Hok. destruct (execute_self host debug a) as (u & g & Hres & [->|[Hu ->]]);
    [done|].
  unfold cooldown_fields_ok, stored_id_ok, after_dispatch. simpl.
  split; [by right|]. destruct (truthy g) eqn:Hg.
  - split; [by right|].
    destruct (resolved_group_shape host a u g Hres) as [->|[->|(d & -> & Hd)]].
    + discriminate.
    + apply ambient_group_id_not_none_text.
    + intros [= ->]. by apply decimals_are_not_none_text in Hd.
  - split; [by left|discriminate].
Qed.

(** X13. The stored target stays well formed over any series of
    invocations: starting from an instance whose stored user and group
    are [None] or non-empty strings (the class defaults in particular),
    they remain so after every invocation, and the stored group is never
    the empty string nor the text [None]. *)
Theorem session_keeps_fields_ok (debug : bool) (a : PokeAction.t)
    (steps : list (Host * PokeAction.t)) :
  cooldown_fields_ok a ->
  cooldown_fields_ok (run_session debug a steps)
  /\ PokeAction.last_poke_group (run_session debug a steps) <> Some [].
Proof.
  intros Hok.
  assert (H : cooldown_fields_ok (run_session debug a steps)).
  { revert a Hok. induction steps as [|[host next] rest IH]; intros a Hok; simpl.
    - done.
    - apply IH. by apply execute_keeps_fields_ok. }
  split; [done|]. destruct H as (_ & [Hg|Hg] & _); rewrite ?Hg; [done|].
  intros Heq. by rewrite Heq in Hg.
Qed.

(** X14. [execute] writes the three cooldown fields and nothing else: the
    action data, the message, the chat stream, the group attribute, the
    reasoning and the response text of the instance are the same after
    the run, whatever path it took. *)
Theorem execute_writes_cooldown_fields_only (host : Host) (debug : bool)
    (a : PokeAction.t) :
  same_attributes a (self (snd (execute_with host debug (init_state a)))).
Proof.
  destruct (execute_self host debug a) as (u & g & _ & [->|[_ ->]]);
    unfold same_attributes; done.
Qed.
End Invariants.

(** ** Inputs that do not matter *)

Section Independence.
Context {U : UnicodeDB}.
Context {F : FloatArith}.
Variable host : Host.

Local Arguments truthy : simpl never.
Local Arguments isdigit : simpl never.
Local Arguments ambient_group_id : simpl never.

Lemma resolution_depends_on (a a' : PokeAction.t) :
  dict_get (PokeAction.action_data a') "user_id"
  = dict_get (PokeAction.action_data a) "user_id" ->
  ambient_group_id a' = ambient_group_id a ->
  PokeAction.llm_response_text a' = PokeAction.llm_response_text a ->
  resolved host a' = resolved host a
  /\ resolution_trace host a' = resolution_trace host a.
Proof.
  intros H1 H2 H3.
  unfold resolved, resolution_trace, get_user_and_group_id, bind, get_self,
    try_except, ret, person_api_get_person_id_by_name,
    person_api_get_person_value, logger_error, call, init_state; simpl.
  rewrite H1, H2, H3.
  set (ref := dict_get (PokeAction.action_data a) "user_id").
  destruct (truthy ref && isdigit (py_str ref)); simpl; [done|].
  destruct (truthy ref); simpl; [|done].
  destruct (get_person_id_by_name host ref) as [pid|e]; simpl; [|done].
  destruct (truthy pid); simpl; [|done].
  destruct (get_person_value host pid USER_ID_FIELD) as [uid|e]; simpl; [|done].
  by destruct (truthy uid).
Qed.

Lemma fresh_is_other_target (a : PokeAction.t) (u g : pyval) :
  fresh a -> truthy u = true ->
  PokeAction.last_poke_user a <> u \/ PokeAction.last_poke_group a <> g.
Proof. intros (Hu & _) Ht. left. rewrite Hu. intros <-. discriminate. Qed.

(** X15. A fresh instance is never rate limited: with the class defaults
    ([None], [None], time 0) the first resolved target is sent the
    command, also when the clock reads less than 300, that is less than
    300 seconds after the default time. *)
Theorem fresh_instance_is_not_blocked (debug : bool) (a : PokeAction.t) (u g : pyval) :
  fresh a ->
  resolved host a = Returns (u, g) ->
  truthy u = true ->
  sent_commands (trace (snd (execute_with host debug (init_state a))))
  = [(SEND_POKE, u, display_message a u)]
  /\ fst (execute_with host debug (init_state a)) <> Returns (false, MSG_DUPLICATE).
Proof.
  intros Hfresh Hres Hu.
  assert (Hb : cooldown_blocks host a u g = false).
  { unfold cooldown_blocks.
    by rewrite (same_target_false a u g (fresh_is_other_target a u g Hfresh Hu)). }
  by destruct (dispatching_run host debug a u g Hres Hu Hb) as (Hc & _ & _ & Hn).
Qed.

(** X16. The [reply_id] entry of [action_data] is read and never used:
    setting it to any value changes neither the result of [execute], nor
    the calls it makes, nor the cooldown fields it leaves. *)
Theorem reply_id_is_unused (debug : bool) (a : PokeAction.t) (v : pyval) :
  let a' := with_action_data (<["reply_id" := v]> (PokeAction.action_data a)) a in
  let run := execute_with host debug (init_state a) in
  let run' := execute_with host debug (init_state a') in
  fst run' = fst run
  /\ trace (snd run') = trace (snd run)
  /\ PokeAction.last_poke_user (self (snd run'))
     = PokeAction.last_poke_user (self (snd run))
  /\ PokeAction.last_poke_group (self (snd run'))
     = PokeAction.last_poke_group (self (snd run))
  /\ PokeAction._last_poke_time (self (snd run'))
     = PokeAction._last_poke_time (self (snd run)).
Proof.
  intros a' run run'. subst run run'.
  assert (Hget : forall k, k <> "reply_id" ->
            PokeAction.action_data a' !! k = PokeAction.action_data a !! k).
  { intros k Hk. subst a'. simpl. by rewrite lookup_insert_ne. }
  assert (Hamb : ambient_group_id a' = ambient_group_id a).
  { unfold ambient_group_id, dict_get. by rewrite Hget. }
  destruct (resolution_depends_on a a') as [Hres Htr];
    [unfold dict_get; by rewrite Hget|done|done|].
  assert (Hdisp : forall u, display_message a' u = display_message a u).
  { intros u. unfold display_message, dict_get_default. by rewrite Hget. }
  assert (Hlog : log_record a' = log_record a).
  { unfold log_record, reason_of, dict_get_default. by rewrite Hget. }
  destruct (resolved_total host a) as (u & g & Hr & _).
  assert (Hr' : resolved host a' = Returns (u, g)) by congruence.
  destruct (truthy u) eqn:Hu.
  - destruct (cooldown_blocks host a u g) eqn:Hb.
    + rewrite (execute_blocked host debug a u g Hr Hu Hb).
      rewrite (execute_blocked host debug a' u g Hr' Hu Hb).
      simpl. by rewrite Htr.
    + destruct (send_command host SEND_POKE u (display_message a u)) as [[]|e] eqn:Hs.
      * rewrite (execute_dispatch_ok host debug a u g Hr Hu Hb Hs).
        rewrite (execute_dispatch_ok host debug a' u g Hr' Hu Hb);
          [|by rewrite Hdisp].
        simpl. by rewrite Htr, Hdisp, Hlog.
      * rewrite (execute_dispatch_failed host debug a u g e Hr Hu Hb Hs).
        rewrite (execute_dispatch_failed host debug a' u g e Hr' Hu Hb);
          [|by rewrite Hdisp].
        simpl. by rewrite Htr, Hdisp.
  - rewrite (execute_no_target host debug a u g Hr Hu).
    rewrite (execute_no_target host debug a' u g Hr' Hu).
    simpl. by rewrite Htr.
Qed.
End Independence.

(** ** The two send helpers and the debug flag *)

Section Helpers.
Context {U : UnicodeDB}.
Context {F : FloatArith}.
Variable host : Host.

Local Arguments truthy : simpl never.

(** X17. The group id never reaches the transport: [_send_group_poke] and
    [_send_friend_poke] send the same command, for the user id alone, and
    return the same pair; neither raises nor touches the instance or the
    clock, and they differ only in the prefix of the error they log. *)
Theorem group_and_friend_poke_send_the_same (group_id reply_id user_id : pyval)
    (s : State) :
  let rg := _send_group_poke host group_id reply_id user_id s in
  let rf := _send_friend_poke host user_id s in
  fst rg = fst rf
  /\ (exists r, fst rg = Returns r)
  /\ sent_commands (trace (snd rg)) = sent_commands (trace (snd rf))
  /\ sent_commands (trace (snd rg))
     = sent_commands (trace s)
         ++ [(SEND_POKE, user_id,
              DISPLAY_OPEN ++ py_str (target_user_name (self s) user_id)
                ++ DISPLAY_CLOSE)]
  /\ self (snd rg) = self s /\ self (snd rf) = self s
  /\ clock_reads (snd rg) = clock_reads s /\ clock_reads (snd rf) = clock_reads s.
Proof.
  intros rg rf. subst rg rf.
  unfold _send_group_poke, _send_friend_poke, try_except, bind, get_self,
    self_send_command, logger_error, call, ret; simpl.
  unfold dict_get_default, target_user_name.
  destruct (send_command host SEND_POKE user_id _) as [[]|e]; simpl;
    rewrite ?sent_commands_app; simpl; rewrite ?app_nil_r;
    destruct (PokeAction.action_data (self s) !! "user_id"); simpl; eauto 10.
Qed.

(** X18. The debug flag adds diagnostics and changes nothing else: with
    the flag on or off a run returns the same result, leaves the same
    instance, reads the clock as often, sends the same command and
    stores the same record. *)
Theorem debug_only_adds_diagnostics (a : PokeAction.t) :
  let on := execute_with host true (init_state a) in
  let off := execute_with host false (init_state a) in
  fst on = fst off
  /\ self (snd on) = self (snd off)
  /\ clock_reads (snd on) = clock_reads (snd off)
  /\ sent_commands (trace (snd on)) = sent_commands (trace (snd off))
  /\ stored_actions (trace (snd on)) = stored_actions (trace (snd off))
  /\ sent_texts (trace (snd off)) = [].
Proof.
  intros on off. subst on off.
  destruct (resolved_total host a) as (u & g & Hr & _).
  destruct (truthy u) eqn:Hu.
  - destruct (cooldown_blocks host a u g) eqn:Hb.
    + rewrite !(execute_blocked host _ a u g Hr Hu Hb). simpl.
      rewrite !sent_commands_app, !stored_actions_app, !sent_texts_app.
      by destruct (resolution_trace_quiet host a) as (-> & -> & ->).
    + destruct (send_command host SEND_POKE u (display_message a u)) as [[]|e] eqn:Hs.
      * rewrite !(execute_dispatch_ok host _ a u g Hr Hu Hb Hs). simpl.
        rewrite !sent_commands_app, !stored_actions_app, !sent_texts_app.
        by destruct (resolution_trace_quiet host a) as (-> & -> & ->).
      * rewrite !(execute_dispatch_failed host _ a u g e Hr Hu Hb Hs). simpl.
        rewrite !sent_commands_app, !stored_actions_app, !sent_texts_app.
        by destruct (resolution_trace_quiet host a) as (-> & -> & ->).
  - rewrite !(execute_no_target host _ a u g Hr Hu). simpl.
    rewrite !sent_commands_app, !stored_actions_app, !sent_texts_app.
    by destruct (resolution_trace_quiet host a) as (-> & -> & ->).
Qed.
End Helpers.

(** ** The further properties on concrete invocations *)

Lemma re_search_sound_witness :
  re_search USER_ID_PATTERN sample_text = Some (py "42")
  /\ exists pre ws post,
      sample_text = pre ++ USER_ID_PATTERN ++ ws ++ py "42" ++ post
      /\ Forall (fun c => uc_space c = true) ws
      /\ py "42" <> []
      /\ Forall (fun c => uc_decimal c = true) (py "42")
      /\ no_digit_ahead post
      /\ no_start USER_ID_PATTERN pre (USER_ID_PATTERN ++ ws ++ py "42" ++ post).
Proof.
  assert (H1 : re_search USER_ID_PATTERN sample_text = Some (py "42"))
    by (vm_compute; reflexivity).
  exact (conj H1 (re_search_sound USER_ID_PATTERN sample_text (py "42") H1)).
Defined.

Lemma re_search_complete_witness :
  Forall (fun c => uc_space c = true) [32]
  /\ uc_decimal 52 = true
  /\ exists d, re_search USER_ID_PATTERN
                 (py "id " ++ USER_ID_PATTERN ++ [32] ++ 52 :: py "2!") = Some d
               /\ d <> [].
Proof.
  assert (H1 : Forall (fun c => uc_space c = true) [32]) by (repeat constructor).
  assert (H2 : uc_decimal 52 = true) by reflexivity.
  exact (conj H1 (conj H2
          (re_search_complete USER_ID_PATTERN (py "id ") [32] (py "2!") 52 H1 H2))).
Defined.

Lemma person_api_call_discipline_witness :
  truthy (user_reference named_action) = true
  /\ isdigit (py_str (user_reference named_action)) = false
  /\ resolution_trace failing_host named_action
     = [GetPersonIdByName (user_reference named_action);
        LoggerError (LOG_PERSON_API ++ py "person store down")].
Proof.
  assert (H1 : truthy (user_reference named_action) = true)
    by (vm_compute; reflexivity).
  assert (H2 : isdigit (py_str (user_reference named_action)) = false)
    by (vm_compute; reflexivity).
  exact (conj H1 (conj H2
          (proj2 (person_api_call_discipline failing_host named_action) H1 H2))).
Defined.

Lemma text_is_ignored_after_lookup_witness :
  lookup_fails failing_host numeric_action = false
  /\ resolved failing_host (with_llm_response_text sample_text numeric_action)
     = resolved failing_host numeric_action.
Proof.
  assert (H1 : lookup_fails failing_host numeric_action = false)
    by (vm_compute; reflexivity).
  exact (conj H1 (proj1 (text_is_ignored_after_lookup failing_host numeric_action
                           sample_text H1))).
Defined.

Lemma resolved_group_is_never_none_text_witness :
  resolved failing_host none_action = Returns (Some (py "10001"), None)
  /\ (None : pyval) <> Some NONE_TEXT.
Proof.
  assert (H1 : resolved failing_host none_action = Returns (Some (py "10001"), None))
    by (vm_compute; reflexivity).
  exact (conj H1 (resolved_group_is_never_none_text failing_host none_action _ _ H1)).
Defined.

Lemma colon_free_text_resolves_nothing_witness :
  lookup_fails failing_host lost_action = true
  /\ (58 ∉ PokeAction.llm_response_text lost_action)
  /\ resolved failing_host lost_action = Returns (None, None).
Proof.
  assert (H1 : lookup_fails failing_host lost_action = true)
    by (vm_compute; reflexivity).
  assert (H2 : 58 ∉ PokeAction.llm_response_text lost_action).
  { apply (bool_decide_unpack _). vm_compute. exact I. }
  exact (conj H1 (conj H2
          (colon_free_text_resolves_nothing failing_host lost_action H1 H2))).
Defined.

Lemma other_target_is_not_blocked_witness :
  resolved (accepting_host 1001) regrouped_action
  = Returns (Some (py "10001"), Some (py "888"))
  /\ PokeAction.last_poke_group regrouped_action <> Some (py "888")
  /\ sent_commands (trace (snd (execute (accepting_host 1001)
                                  (init_state regrouped_action))))
     = [(SEND_POKE, Some (py "10001"),
         display_message regrouped_action (Some (py "10001")))].
Proof.
  assert (H1 : resolved (accepting_host 1001) regrouped_action
               = Returns (Some (py "10001"), Some (py "888")))
    by (vm_compute; reflexivity).
  assert (H2 : PokeAction.last_poke_group regrouped_action <> Some (py "888"))
    by (vm_compute; discriminate).
  exact (conj H1 (conj H2
          (proj1 (other_target_is_not_blocked (accepting_host 1001) POKE_DEBUG
                    regrouped_action _ _ H1 eq_refl (or_intror H2))))).
Defined.

Lemma blocked_attempt_keeps_window_witness :
  resolved (accepting_host 1100) poked_action
  = Returns (Some (py "10001"), Some (py "777"))
  /\ cooldown_blocks (accepting_host 1100) poked_action
       (Some (py "10001")) (Some (py "777")) = true
  /\ (COOLDOWN <= time_time (accepting_host 1400) 0
                  - PokeAction._last_poke_time poked_action)%Q
  /\ sent_commands
       (trace (snd (execute (accepting_host 1400)
                      (init_state
                         (self (snd (execute (accepting_host 1100)
                                       (init_state poked_action))))))))
     = [(SEND_POKE, Some (py "10001"),
         display_message
           (self (snd (execute (accepting_host 1100) (init_state poked_action))))
           (Some (py "10001")))].
Proof.
  assert (H1 : resolved (accepting_host 1100) poked_action
               = Returns (Some (py "10001"), Some (py "777")))
    by (vm_compute; reflexivity).
  assert (H2 : cooldown_blocks (accepting_host 1100) poked_action
                 (Some (py "10001")) (Some (py "777")) = true)
    by (vm_compute; reflexivity).
  assert (H3 : resolved (accepting_host 1400)
                 (self (snd (execute (accepting_host 1100) (init_state poked_action))))
               = Returns (Some (py "10001"), Some (py "777")))
    by (vm_compute; reflexivity).
  assert (H4 : (COOLDOWN <= time_time (accepting_host 1400) 0
                            - PokeAction._last_poke_time poked_action)%Q)
    by (vm_compute; discriminate).
  exact (conj H1 (conj H2 (conj H4
          (proj2 (blocked_attempt_keeps_window (accepting_host 1100)
                    (accepting_host 1400) POKE_DEBUG poked_action _ _
                    H1 eq_refl H2 H3 H4))))).
Defined.

Lemma empty_group_repeat_is_sent_witness :
  resolved (accepting_host 1000) empty_group_action
  = Returns (Some (py "10001"), Some [])
  /\ sent_commands (trace (snd (execute (accepting_host 1000)
                                  (init_state empty_group_action)))) <> []
  /\ resolved (accepting_host 1001) empty_group_poked
     = Returns (Some (py "10001"), Some [])
  /\ PokeAction.last_poke_group empty_group_poked = None
  /\ sent_commands (trace (snd (execute (accepting_host 1001)
                                  (init_state empty_group_poked))))
     = [(SEND_POKE, Some (py "10001"),
         display_message empty_group_poked (Some (py "10001")))].
Proof.
  assert (H1 : resolved (accepting_host 1000) empty_group_action
               = Returns (Some (py "10001"), Some []))
    by (vm_compute; reflexivity).
  assert (H2 : sent_commands (trace (snd (execute (accepting_host 1000)
                                            (init_state empty_group_action)))) <> [])
    by (vm_compute; discriminate).
  assert (H3 : resolved (accepting_host 1001) empty_group_poked
               = Returns (Some (py "10001"), Some []))
    by (vm_compute; reflexivity).
  destruct (empty_group_repeat_is_sent (accepting_host 1000) (accepting_host 1001)
              POKE_DEBUG empty_group_action empty_group_poked _
              H1 H2 eq_refl eq_refl H3) as (R1 & R2 & _).
  exact (conj H1 (conj H2 (conj H3 (conj R1 R2)))).
Defined.

Lemma result_flag_matches_effects_witness :
  fst (execute (accepting_host 1000) (init_state numeric_action))
  = Returns (true, MSG_SUCCESS)
  /\ length (stored_actions
               (trace (snd (execute (accepting_host 1000)
                              (init_state numeric_action))))) = 1%nat
  /\ fst (execute failing_host (init_state numeric_action))
     = Returns (false, MSG_FAILED ++ py "timeout")
  /\ stored_actions (trace (snd (execute failing_host (init_state numeric_action))))
     = [].
Proof.
  assert (H1 : fst (execute (accepting_host 1000) (init_state numeric_action))
               = Returns (true, MSG_SUCCESS)) by (vm_compute; reflexivity).
  assert (H2 : fst (execute failing_host (init_state numeric_action))
               = Returns (false, MSG_FAILED ++ py "timeout"))
    by (vm_compute; reflexivity).
  destruct (result_flag_matches_effects (accepting_host 1000) POKE_DEBUG
              numeric_action) as [Hok _].
  destruct (result_flag_matches_effects failing_host POKE_DEBUG numeric_action)
    as [_ Hko].
  destruct (Hok _ H1) as (_ & _ & R1 & _).
  destruct (Hko _ H2) as (R2 & _).
  exact (conj H1 (conj R1 (conj H2 R2))).
Defined.

Lemma session_keeps_fields_ok_witness :
  cooldown_fields_ok numeric_action
  /\ cooldown_fields_ok (run_session POKE_DEBUG numeric_action sample_session)
  /\ PokeAction.last_poke_group (run_session POKE_DEBUG numeric_action sample_session)
     <> Some [].
Proof.
  assert (H1 : cooldown_fields_ok numeric_action).
  { split; [by left|]. split; [by left|discriminate]. }
  exact (conj H1 (session_keeps_fields_ok POKE_DEBUG numeric_action sample_session H1)).
Defined.

Lemma fresh_instance_is_not_blocked_witness :
  fresh numeric_action
  /\ resolved (accepting_host 10) numeric_action
     = Returns (Some (py "10001"), Some (py "777"))
  /\ (time_time (accepting_host 10) 0 - PokeAction._last_poke_time numeric_action
      < COOLDOWN)%Q
  /\ sent_commands (trace (snd (execute (accepting_host 10)
                                  (init_state numeric_action))))
     = [(SEND_POKE, Some (py "10001"),
         display_message numeric_action (Some (py "10001")))].
Proof.
  assert (H1 : fresh numeric_action) by (repeat split).
  assert (H2 : resolved (accepting_host 10) numeric_action
               = Returns (Some (py "10001"), Some (py "777")))
    by (vm_compute; reflexivity).
  assert (H3 : (time_time (accepting_host 10) 0
                - PokeAction._last_poke_time numeric_action < COOLDOWN)%Q)
    by (vm_compute; reflexivity).
  exact (conj H1 (conj H2 (conj H3
          (proj1 (fresh_instance_is_not_blocked (accepting_host 10) POKE_DEBUG
                    numeric_action _ _ H1 H2 eq_refl))))).
Defined.
